(** * SmartSpend price-comparison server: a shallow embedding of [server.js]

    The development follows the layout of the server:
    - [Num]: JavaScript numbers as IEEE 754 binary64 values ([spec_float] at
      precision 53), with the comparison and coercion rules of ECMAScript;
    - [Str]: the string primitives the server calls ([toLowerCase],
      [includes], [split(/\s+/)], [replace(/[^0-9.]/g, '')], [parseFloat],
      [toFixed(2)]);
    - [Base64]: [Buffer.from(s).toString('base64')];
    - [Arr]: [Array.prototype.sort];
    - [Db]: the five SQLite tables and the statements issued on them;
    - then the server itself: [getPricePrediction], [filterAndSortProducts],
      [performSerpApiSearch], the wish-list handler and the price-drop worker.

    Strings are modelled by their UTF-8 encoding (one [ascii] per byte).  Case
    mapping and white space are those of the ASCII range; bytes above 127 are
    left untouched by [toLowerCase] and never count as white space. *)

From Stdlib Require Import ZArith NArith List String Ascii Bool Lia.
From Stdlib Require Import SpecFloat DecimalString Permutation Sorted.
Import ListNotations.

Local Open Scope Z_scope.

(** ** JavaScript numbers *)

Module Num.

Definition number := spec_float.

Definition prec : Z := 53.
Definition emax : Z := 1024.

Definition NaN : number := S754_nan.
Definition Infinity : number := S754_infinity false.
Definition zero : number := S754_zero false.


(** The number denoted by an integer literal or by [array.length]. *)
Definition ofZ (z : Z) : number := binary_normalize prec emax z 0 false.

(** The number closest to [m / 10^k] (ties to even): the value of a decimal
    literal with digits [m] and [k] digits after the point. *)
Definition decimal (m : Z) (k : nat) : number :=
  match m with
  | Z0 => S754_zero false
  | Zpos p =>
      SFdiv prec emax (S754_finite false p 0)
        (S754_finite false (Z.to_pos (10 ^ Z.of_nat k)) 0)
  | Zneg p =>
      SFdiv prec emax (S754_finite true p 0)
        (S754_finite false (Z.to_pos (10 ^ Z.of_nat k)) 0)
  end.

Definition add : number -> number -> number := SFadd prec emax.
Definition sub : number -> number -> number := SFsub prec emax.
Definition mul : number -> number -> number := SFmul prec emax.
Definition div : number -> number -> number := SFdiv prec emax.

Definition isNaN (x : number) : bool :=
  match x with S754_nan => true | _ => false end.

(** [IsLessThan(x, y)] of ECMAScript: [None] stands for undefined. *)
Definition isLessThan (x y : number) : option bool :=
  match SFcompare x y with
  | None => None
  | Some Lt => Some true
  | Some _ => Some false
  end.

(** [x < y], [x > y], [x <= y], [x >= y]. *)
Definition lt (x y : number) : bool :=
  match isLessThan x y with Some true => true | _ => false end.
Definition gt (x y : number) : bool :=
  match isLessThan y x with Some true => true | _ => false end.
Definition le (x y : number) : bool :=
  match isLessThan y x with Some false => true | _ => false end.
Definition ge (x y : number) : bool :=
  match isLessThan x y with Some false => true | _ => false end.

(** [ToBoolean]: NaN, +0 and -0 are falsy. *)
Definition truthy (x : number) : bool :=
  match x with
  | S754_nan | S754_zero _ => false
  | _ => true
  end.

(** [x || y] on numbers. *)
Definition or_else (x y : number) : number := if truthy x then x else y.

(** [Math.min(...xs)] and [Math.max(...xs)]. *)
Definition min2 (lowest x : number) : number :=
  match lowest, x with
  | S754_nan, _ | _, S754_nan => S754_nan
  | S754_zero false, S754_zero true => x
  | _, _ => if lt x lowest then x else lowest
  end.

Definition max2 (highest x : number) : number :=
  match highest, x with
  | S754_nan, _ | _, S754_nan => S754_nan
  | S754_zero true, S754_zero false => x
  | _, _ => if gt x highest then x else highest
  end.

Definition Math_min (xs : list number) : number :=
  fold_left min2 xs (S754_infinity false).
Definition Math_max (xs : list number) : number :=
  fold_left max2 xs (S754_infinity true).

(** [x > 0], the test a sort makes on the answer of its comparator. *)
Definition isPositive (x : number) : bool := gt x zero.

Arguments isPositive x : simpl never.

(** [xs.reduce((sum, p) => sum + p, 0)]. *)
Definition sum (xs : list number) : number := fold_left add xs zero.

End Num.

Export Num.

(** ** JavaScript strings *)

Module Str.

Local Open Scope string_scope.

Definition is_upper (c : ascii) : bool :=
  let n := nat_of_ascii c in ((65 <=? n) && (n <=? 90))%nat.

Definition is_digit (c : ascii) : bool :=
  let n := nat_of_ascii c in ((48 <=? n) && (n <=? 57))%nat.

(** The characters matched by [\s]. *)
Definition is_space (c : ascii) : bool :=
  let n := nat_of_ascii c in ((n =? 32) || ((9 <=? n) && (n <=? 13)))%nat.

Definition lower_char (c : ascii) : ascii :=
  if is_upper c then ascii_of_nat (nat_of_ascii c + 32) else c.

(** [s.toLowerCase()]. *)
Fixpoint toLowerCase (s : string) : string :=
  match s with
  | EmptyString => EmptyString
  | String c s' => String (lower_char c) (toLowerCase s')
  end.

(** [s.includes(k)]. *)
Fixpoint includes (s k : string) : bool :=
  if prefix k s then true
  else match s with
       | EmptyString => false
       | String _ s' => includes s' k
       end.

(** [s.split(/\s+/)]: [cur] is the piece being read, [in_sep] tells that
    the previous character belonged to a separator. *)
Fixpoint split_spaces_from (s cur : string) (in_sep : bool) : list string :=
  match s with
  | EmptyString => [cur]
  | String c s' =>
      if is_space c then
        if in_sep then split_spaces_from s' cur true
        else cur :: split_spaces_from s' EmptyString true
      else split_spaces_from s' (cur ++ String c EmptyString) false
  end.

Definition split_spaces (s : string) : list string :=
  split_spaces_from s EmptyString false.

(** [s.replace(/[^0-9.]/g, '')]. *)
Fixpoint keep_numeric (s : string) : string :=
  match s with
  | EmptyString => EmptyString
  | String c s' =>
      if is_digit c || Ascii.eqb c "."%char
      then String c (keep_numeric s')
      else keep_numeric s'
  end.

(** Reads the longest run of digits at the head of [s]: the run continues
    the decimal numeral [acc], [n] counts the digits read. *)
Fixpoint read_digits (s : string) (acc : Z) (n : nat) : Z * nat * string :=
  match s with
  | String c s' =>
      if is_digit c
      then read_digits s' (10 * acc + (Z.of_nat (nat_of_ascii c) - 48)) (S n)
      else (acc, n, s)
  | EmptyString => (acc, n, s)
  end.

(** [parseFloat(s)] for a string [s] over digits and points, which is what
    the server passes after [keep_numeric]: the longest prefix of the form
    [digits], [digits.], [digits.digits] or [.digits] is the literal read,
    and a string with no such prefix gives NaN. *)
Definition parseFloat (s : string) : number :=
  let '(int_part, n_int, rest) := read_digits s 0 O in
  match rest with
  | String "."%char frac =>
      let '(all, n_frac, _) := read_digits frac int_part O in
      match n_int, n_frac with
      | O, O => NaN
      | _, _ => decimal all n_frac
      end
  | _ =>
      match n_int with
      | O => NaN
      | _ => decimal int_part O
      end
  end.

(** [s.length > 0], also the truth value of a string. *)
Definition nonempty (s : string) : bool :=
  match s with EmptyString => false | _ => true end.

(** The truth value of a field that may be undefined. *)
Definition truthy (o : option string) : bool :=
  match o with Some s => nonempty s | None => false end.

(** [o || ''] for a field that may be undefined. *)
Definition or_empty (o : option string) : string :=
  match o with Some s => s | None => "" end.

(** The Indian rupee sign U+20B9, as UTF-8. *)
Definition rupee : string :=
  String (ascii_of_nat 226) (String (ascii_of_nat 130)
    (String (ascii_of_nat 185) EmptyString)).

Section ToFixed.

(** [Number::toString] of ECMAScript (shortest round-trip digits).  The
    server reaches it only through [toFixed] on values of at least
    [10^21]; it is kept abstract. *)
Variable NumberToString : number -> string.

Definition digits_of (n : Z) : string :=
  NilZero.string_of_uint (N.to_uint (Z.to_N n)).

(** The two-decimal rendering of [n / 100] for an integer [n >= 0]. *)
Definition cents (n : Z) : string :=
  digits_of (n / 100)%Z ++ "." ++
  digits_of ((n mod 100) / 10)%Z ++ digits_of (n mod 10)%Z.

(** For [x = m * 2^e]: is [x >= 10^21], and the integer nearest to
    [100 * x], the larger one on a tie. *)
Definition at_least_1e21 (m : positive) (e : Z) : bool :=
  (if 0 <=? e then 10 ^ 21 <=? Zpos m * 2 ^ e
   else 10 ^ 21 * 2 ^ (- e) <=? Zpos m)%Z.

Definition nearest_cents (m : positive) (e : Z) : Z :=
  (if 0 <=? e then 100 * Zpos m * 2 ^ e
   else (200 * Zpos m + 2 ^ (- e)) / (2 * 2 ^ (- e)))%Z.

(** [x.toFixed(2)]. *)
Definition toFixed2 (x : number) : string :=
  match x with
  | S754_nan => "NaN"
  | S754_infinity false => "Infinity"
  | S754_infinity true => "-Infinity"
  | S754_zero _ => "0.00"
  | S754_finite s m e =>
      if at_least_1e21 m e then NumberToString x
      else (if s then "-" else "") ++ cents (nearest_cents m e)
  end.

End ToFixed.

End Str.

(** ** [Buffer.from(s).toString('base64')] *)

Module Base64.

Local Open Scope N_scope.

Definition alphabet : string :=
  "ABCDEFGHIJKLMNOPQRSTUVWXYZabcdefghijklmnopqrstuvwxyz0123456789+/".

Definition pad : ascii := "="%char.

(** The character that encodes the six-bit group [i]. *)
Definition digit (i : N) : ascii :=
  match String.get (N.to_nat i) alphabet with
  | Some c => c
  | None => pad
  end.

(** The position of a character in the alphabet (64 when it has none). *)
Fixpoint position (c : ascii) (s : string) : N :=
  match s with
  | EmptyString => 0
  | String d s' => if Ascii.eqb c d then 0 else N.succ (position c s')
  end.

Definition sextet (c : ascii) : N := position c alphabet.

(** Three bytes make four groups of six bits; a last group of one or two
    bytes is completed with zero bits and padded with [=]. *)
Fixpoint encode (bytes : list N) : string :=
  match bytes with
  | [] => EmptyString
  | [a] =>
      String (digit (a / 4)) (String (digit (a mod 4 * 16))
        (String pad (String pad EmptyString)))
  | [a; b] =>
      String (digit (a / 4)) (String (digit (a mod 4 * 16 + b / 16))
        (String (digit (b mod 16 * 4)) (String pad EmptyString)))
  | a :: b :: c :: rest =>
      String (digit (a / 4)) (String (digit (a mod 4 * 16 + b / 16))
        (String (digit (b mod 16 * 4 + c / 64))
          (String (digit (c mod 64)) (encode rest))))
  end.

(** The bytes of a string. *)
Definition bytes_of (s : string) : list N :=
  map N_of_ascii (list_ascii_of_string s).

Definition toBase64 (s : string) : string := encode (bytes_of s).

(** Lists of bytes. *)
Definition bytes (l : list N) : Prop := Forall (fun n => n < 256) l.

End Base64.

(** ** [Array.prototype.sort] *)

Module Arr.

(** [SortCompare]: the comparator's answer, NaN counting as [+0]. *)
Definition sortCompare {A : Type} (comparefn : A -> A -> number)
    (x y : A) : number :=
  let v := comparefn x y in
  if isNaN v then zero else v.

(** ECMAScript asks for a stable sort: elements the comparator does not
    separate keep their order.  The insertion sort below places each
    element before the first element of the sorted tail that must not
    precede it. *)
Fixpoint insert {A : Type} (comparefn : A -> A -> number)
    (x : A) (l : list A) : list A :=
  match l with
  | [] => [x]
  | y :: l' =>
      if isPositive (sortCompare comparefn x y)
      then y :: insert comparefn x l'
      else x :: l
  end.

Definition sort {A : Type} (comparefn : A -> A -> number)
    (l : list A) : list A :=
  fold_right (insert comparefn) [] l.

(** [x] may stand before [y]: the comparator does not ask for the swap. *)
Definition keeps {A : Type} (comparefn : A -> A -> number) (x y : A) : Prop :=
  isPositive (sortCompare comparefn x y) = false.

End Arr.

(** ** The SQLite database

    A table is the list of its rows in insertion order.  Statements run to
    completion in the order the server issues them and never fail for a
    reason other than a constraint of the schema. *)

Module Db.

Record ProductRow := {
  p_id : string;
  p_title : string;
  p_thumbnail : option string;
  p_link : string;
  p_source : string;
  p_last_price : option string;
  p_last_updated : Z
}.

Record PricePoint := {
  h_product_id : string;
  h_price : string;
  h_timestamp : Z
}.

Record WishlistRow := {
  w_user_id : string;
  w_product_id : string;
  w_added_at : Z
}.

Record Customer := {
  cu_id : Z;
  cu_name : string;
  cu_email : string;
  cu_password_hash : string;
  cu_created_at : Z
}.

Record CartRow := {
  c_user_id : Z;
  c_product_id : string;
  c_reminder_price : option string;
  c_added_at : Z
}.

Record t := {
  products : list ProductRow;
  price_history : list PricePoint;
  wishlists : list WishlistRow;
  customers : list Customer;
  cart : list CartRow
}.

Definition empty : t :=
  {| products := []; price_history := []; wishlists := [];
     customers := []; cart := [] |}.

(** [INSERT OR REPLACE INTO products (...) VALUES (...)]: the row that
    holds the primary key, if any, gives way to the new one. *)
Definition insert_or_replace_product (row : ProductRow) (db : t) : t :=
  {| products :=
       filter (fun r => negb (String.eqb (p_id r) (p_id row))) (products db)
       ++ [row];
     price_history := price_history db;
     wishlists := wishlists db;
     customers := customers db;
     cart := cart db |}.

(** [INSERT INTO price_history (product_id, price, timestamp) VALUES
    (?, ?, ?)]: [price] is [NOT NULL], so an undefined price is refused and
    the table is left as it is. *)
Definition insert_price_history (product_id : string)
    (price : option string) (timestamp : Z) (db : t) : t :=
  match price with
  | None => db
  | Some price =>
      {| products := products db;
         price_history :=
           price_history db ++
           [{| h_product_id := product_id; h_price := price;
               h_timestamp := timestamp |}];
         wishlists := wishlists db;
         customers := customers db;
         cart := cart db |}
  end.

(** [ORDER BY timestamp DESC]: rows of equal timestamp stay in table
    order. *)
Fixpoint insert_recent (row : PricePoint) (l : list PricePoint)
    : list PricePoint :=
  match l with
  | [] => [row]
  | r :: l' =>
      if h_timestamp r <=? h_timestamp row then row :: l
      else r :: insert_recent row l'
  end.

Definition order_by_timestamp_desc (rows : list PricePoint)
    : list PricePoint :=
  fold_right insert_recent [] rows.

(** [SELECT price FROM price_history WHERE product_id = ? ORDER BY
    timestamp DESC LIMIT 5]. *)
Definition select_recent_prices (db : t) (product_id : string)
    : list string :=
  map h_price
    (firstn 5
       (order_by_timestamp_desc
          (filter (fun r => String.eqb (h_product_id r) product_id)
             (price_history db)))).

(** [INSERT OR IGNORE INTO wishlists (user_id, product_id, added_at)
    VALUES (?, ?, ?)], with the number of rows changed. *)
Definition wishlist_has (user_id product_id : string) (r : WishlistRow)
    : bool :=
  String.eqb (w_user_id r) user_id && String.eqb (w_product_id r) product_id.

Definition insert_or_ignore_wishlist (user_id product_id : string)
    (added_at : Z) (db : t) : t * nat :=
  if existsb (wishlist_has user_id product_id) (wishlists db)
  then (db, 0%nat)
  else
    ({| products := products db;
        price_history := price_history db;
        wishlists :=
          wishlists db ++
          [{| w_user_id := user_id; w_product_id := product_id;
              w_added_at := added_at |}];
        customers := customers db;
        cart := cart db |}, 1%nat).

(** [UPDATE cart SET reminder_price = NULL WHERE user_id = ? AND
    product_id = ?]. *)
Definition cart_has (user_id : Z) (product_id : string) (r : CartRow)
    : bool :=
  (c_user_id r =? user_id) && String.eqb (c_product_id r) product_id.

Definition clear_reminder (user_id : Z) (product_id : string)
    (r : CartRow) : CartRow :=
  if cart_has user_id product_id r
  then {| c_user_id := c_user_id r; c_product_id := c_product_id r;
          c_reminder_price := None; c_added_at := c_added_at r |}
  else r.

Definition update_cart_clear_reminder (user_id : Z) (product_id : string)
    (db : t) : t :=
  {| products := products db;
     price_history := price_history db;
     wishlists := wishlists db;
     customers := customers db;
     cart := map (clear_reminder user_id product_id) (cart db) |}.

(** A row of [SELECT c.user_id, c.product_id, c.reminder_price, p.title,
    p.last_price, cu.email, cu.name FROM cart c JOIN products p ON
    c.product_id = p.id JOIN customers cu ON c.user_id = cu.id WHERE
    c.reminder_price IS NOT NULL]. *)
Record ReminderRow := {
  r_user_id : Z;
  r_product_id : string;
  r_reminder_price : string;
  r_title : string;
  r_last_price : option string;
  r_email : string;
  r_name : string
}.

Definition select_reminders (db : t) : list ReminderRow :=
  flat_map (fun c =>
    match c_reminder_price c with
    | None => []
    | Some reminder =>
        flat_map (fun p =>
          if String.eqb (c_product_id c) (p_id p) then
            flat_map (fun cu =>
              if c_user_id c =? cu_id cu then
                [{| r_user_id := c_user_id c;
                    r_product_id := c_product_id c;
                    r_reminder_price := reminder;
                    r_title := p_title p;
                    r_last_price := p_last_price p;
                    r_email := cu_email cu;
                    r_name := cu_name cu |}]
              else []) (customers db)
          else []) (products db)
    end) (cart db).

(** [DELETE FROM wishlists WHERE user_id = ? AND product_id = ?], with the
    number of rows changed. *)
Definition delete_wishlist (user_id product_id : string) (db : t) : t * nat :=
  ({| products := products db;
      price_history := price_history db;
      wishlists :=
        filter (fun r => negb (wishlist_has user_id product_id r))
          (wishlists db);
      customers := customers db;
      cart := cart db |},
   List.length (filter (wishlist_has user_id product_id) (wishlists db))).

(** [SELECT p.*, w.added_at FROM wishlists w JOIN products p ON
    w.product_id = p.id WHERE w.user_id = ?]. *)
Definition select_wishlist (user_id : string) (db : t)
    : list (ProductRow * Z) :=
  flat_map (fun w =>
    if String.eqb (w_user_id w) user_id then
      flat_map (fun p =>
        if String.eqb (w_product_id w) (p_id p) then [(p, w_added_at w)]
        else []) (products db)
    else []) (wishlists db).

(** [SELECT id FROM products WHERE id = ?] and [SELECT id FROM customers
    WHERE id = ?]: is there a row. *)
Definition product_exists (product_id : string) (db : t) : bool :=
  existsb (fun p => String.eqb (p_id p) product_id) (products db).

Definition customer_exists (user_id : Z) (db : t) : bool :=
  existsb (fun cu => cu_id cu =? user_id) (customers db).

(** [INSERT OR REPLACE INTO cart (user_id, product_id, reminder_price,
    added_at) VALUES (?, ?, ?, ?)]. *)
Definition insert_or_replace_cart (row : CartRow) (db : t) : t :=
  {| products := products db;
     price_history := price_history db;
     wishlists := wishlists db;
     customers := customers db;
     cart :=
       filter
         (fun r => negb (cart_has (c_user_id row) (c_product_id row) r))
         (cart db)
       ++ [row] |}.

(** [DELETE FROM cart WHERE user_id = ? AND product_id = ?], with the number
    of rows changed. *)
Definition delete_cart (user_id : Z) (product_id : string) (db : t)
    : t * nat :=
  ({| products := products db;
      price_history := price_history db;
      wishlists := wishlists db;
      customers := customers db;
      cart :=
        filter (fun r => negb (cart_has user_id product_id r)) (cart db) |},
   List.length (filter (cart_has user_id product_id) (cart db))).

(** [SELECT p.*, c.reminder_price, c.added_at FROM cart c JOIN products p ON
    c.product_id = p.id WHERE c.user_id = ?]. *)
Definition select_cart (user_id : Z) (db : t)
    : list (ProductRow * option string * Z) :=
  flat_map (fun c =>
    if c_user_id c =? user_id then
      flat_map (fun p =>
        if String.eqb (c_product_id c) (p_id p)
        then [(p, c_reminder_price c, c_added_at c)]
        else []) (products db)
    else []) (cart db).

(** The key [AUTOINCREMENT] gives the next customer: one more than the
    largest key in use (no customer is ever deleted). *)
Definition next_customer_id (db : t) : Z :=
  Z.succ (fold_right Z.max 0 (map cu_id (customers db))).

(** [INSERT INTO customers (name, email, password_hash, created_at) VALUES
    (?, ?, ?, ?)]: [email] is [UNIQUE], and [None] stands for the failure
    of this constraint. *)
Definition insert_customer (name email password_hash : string)
    (created_at : Z) (db : t) : option t :=
  if existsb (fun cu => String.eqb (cu_email cu) email) (customers db)
  then None
  else
    Some {| products := products db;
            price_history := price_history db;
            wishlists := wishlists db;
            customers :=
              customers db ++
              [{| cu_id := next_customer_id db; cu_name := name;
                  cu_email := email; cu_password_hash := password_hash;
                  cu_created_at := created_at |}];
            cart := cart db |}.

(** [SELECT * FROM customers WHERE email = ?] through [db.get]: the first
    row, if any. *)
Definition select_customer_by_email (email : string) (db : t)
    : option Customer :=
  find (fun cu => String.eqb (cu_email cu) email) (customers db).

End Db.

(** ** The server *)

Import Str.

Local Open Scope string_scope.

(** The value of [prediction]: ['buy'], ['wait'] or ['neutral']. *)
Inductive Trend := buy | wait | neutral.

(** An item of [shopping_results], [product_results] or [organic_results].
    [title], [source] and the two links are strings; the fields the server
    guards with [&&] or [||] may be undefined. *)
Record RawItem := {
  item_title : string;
  item_price : option string;
  item_link : string;
  item_product_link : string;
  item_source : string;
  item_thumbnail : option string;
  item_image : option string;
  item_rating : option number
}.

Record Product := {
  id : string;
  title : string;
  price : option string;
  link : string;
  source : string;
  thumbnail : option string;
  rating : option number;
  prediction : option Trend
}.

(** *** Product identity

    [Buffer.from(`${title}-${source}-${link}`).toString('base64')], the
    expression behind the [id] of every product. *)
Definition productId (title source link : string) : string :=
  Base64.toBase64 (title ++ "-" ++ source ++ "-" ++ link).

(** *** [getPricePrediction] *)

(** What the callback of [db.all] receives: an error or the rows. *)
Inductive QueryResult (A : Type) :=
  | QueryError
  | Rows (rows : list A).

Arguments QueryError {A}.
Arguments Rows {A} rows.

(** The callback passed to [db.all].  [currentPrice] is undefined when the
    product has no price: [currentPrice.replace] then raises a TypeError
    inside the callback and the promise is never settled, which [None]
    stands for. *)
Definition onPriceHistory (currentPrice : option string)
    (result : QueryResult string) : option Trend :=
  match result with
  | QueryError => Some neutral
  | Rows rows =>
      if (List.length rows <? 3)%nat then Some neutral
      else
        let prices :=
          filter (fun p => negb (isNaN p))
            (map (fun row => parseFloat (keep_numeric row)) rows) in
        if (List.length prices <? 3)%nat then Some neutral
        else
          match currentPrice with
          | None => None
          | Some currentPrice =>
              let latestPrice := parseFloat (keep_numeric currentPrice) in
              let averageRecent :=
                div (sum prices) (ofZ (Z.of_nat (List.length prices))) in
              let minPrice := Math_min prices in
              let maxPrice := Math_max prices in
              if le latestPrice (mul minPrice (decimal 105 2)) then Some buy
              else if ge latestPrice (mul maxPrice (decimal 95 2))
              then Some wait
              else if lt latestPrice (mul averageRecent (decimal 98 2))
              then Some buy
              else if gt latestPrice (mul averageRecent (decimal 102 2))
              then Some wait
              else Some neutral
          end
  end.

Definition getPricePrediction (db : Db.t) (productId : string)
    (currentPrice : option string) : option Trend :=
  onPriceHistory currentPrice (Rows (Db.select_recent_prices db productId)).

(** *** [filterAndSortProducts] *)

Definition accessoryKeywords : list string :=
  ["case"; "cover"; "screen protector"; "tempered glass"; "skin"; "pouch";
   "stand"; "holder"; "strap"; "charger"; "cable"; "adapter"; "earbuds";
   "headphones"; "protector"; "bag"; "back cover"; "flip cover"; "bumper";
   "shell"; "guard"].

Definition isAccessory (title : string) : bool :=
  existsb (fun k => includes (toLowerCase title) k) accessoryKeywords.

Definition queryWords (query : string) : list string :=
  filter nonempty (split_spaces (toLowerCase query)).

Definition isRelevant (query title : string) : bool :=
  forallb (fun qw => includes (toLowerCase title) qw) (queryWords query)
  && negb (isAccessory title).

(** [parseFloat((p.price || '').replace(/[^0-9.]/g, '')) || Infinity]. *)
Definition sortPrice (p : Product) : number :=
  or_else (parseFloat (keep_numeric (or_empty (price p)))) Infinity.

(** The comparator handed to [products.sort]. *)
Definition compareProducts (query : string) (a b : Product) : number :=
  let aRelevant := isRelevant query (title a) in
  let bRelevant := isRelevant query (title b) in
  if aRelevant && negb bRelevant then ofZ (-1)
  else if negb aRelevant && bRelevant then ofZ 1
  else
    let aPrice := sortPrice a in
    let bPrice := sortPrice b in
    sub aPrice bPrice.

Definition filterAndSortProducts (products : list Product) (query : string)
    : list Product :=
  Arr.sort (compareProducts query) products.

(** *** [performSerpApiSearch] *)

Inductive Provider := GoogleShopping | Amazon | eBay.

(** The outcome of [axios.get]: the request fails (time-out, status outside
    2xx), or a body arrives in which the results field of the provider
    ([shopping_results], [product_results], [organic_results]) is present or
    not. *)
Inductive Response :=
  | RequestFailed
  | Body (results : option (list RawItem)).

(** How a search ends: with the ranked products, with the error raised after
    the last provider, or never, when a TypeError escapes from a database
    callback. *)
Inductive SearchResult :=
  | Found (products : list Product)
  | NoProducts (message : string)
  | Unsettled.

Definition googleProduct (item : RawItem) : Product :=
  {| id := productId (item_title item) (item_source item)
             (item_product_link item);
     title := item_title item;
     price := item_price item;
     link := item_product_link item;
     source := item_source item;
     thumbnail := item_thumbnail item;
     rating := item_rating item;
     prediction := None |}.

Definition amazonProduct (item : RawItem) : Product :=
  {| id := productId (item_title item) "Amazon" (item_link item);
     title := item_title item;
     price := item_price item;
     link := item_link item;
     source := "Amazon";
     thumbnail :=
       if truthy (item_thumbnail item) then item_thumbnail item
       else item_image item;
     rating := item_rating item;
     prediction := None |}.

Definition ebayProduct (item : RawItem) : Product :=
  {| id := productId (item_title item) "eBay" (item_link item);
     title := item_title item;
     price := item_price item;
     link := item_link item;
     source := "eBay";
     thumbnail := item_thumbnail item;
     rating :=
       match item_rating item with
       | Some r => Some (or_else r zero)
       | None => Some zero
       end;
     prediction := None |}.

(** The list [products] each provider block builds from the results. *)
Definition normalize (provider : Provider) (results : list RawItem)
    : list Product :=
  match provider with
  | GoogleShopping => map googleProduct results
  | Amazon => map amazonProduct results
  | eBay =>
      map ebayProduct
        (filter (fun item => truthy (item_price item)
                             && truthy (item_thumbnail item)) results)
  end.

(** One turn of the loop "Store products in database": the product row is
    written, and on success the price point. *)
Definition storeProduct (now : Z) (db : Db.t) (product : Product) : Db.t :=
  Db.insert_price_history (id product) (price product) now
    (Db.insert_or_replace_product
       {| Db.p_id := id product;
          Db.p_title := title product;
          Db.p_thumbnail := thumbnail product;
          Db.p_link := link product;
          Db.p_source := source product;
          Db.p_last_price := price product;
          Db.p_last_updated := now |} db).

Section Search.

Variable NumberToString : number -> string.

(** "Format price in INR". *)
Definition formatPrice (price : option string) : option string :=
  match price with
  | Some p =>
      if nonempty p && negb (includes p rupee)
      then Some (rupee ++
                 toFixed2 NumberToString (parseFloat (keep_numeric p)))
      else price
  | None => price
  end.

(** The loop "Add predictions": it stops for good at the first product
    whose prediction is never settled. *)
Fixpoint addPredictions (db : Db.t) (products : list Product)
    : option (list Product) :=
  match products with
  | [] => Some []
  | product :: rest =>
      match getPricePrediction db (id product) (price product) with
      | None => None
      | Some trend =>
          match addPredictions db rest with
          | None => None
          | Some rest' =>
              Some ({| id := id product;
                       title := title product;
                       price := formatPrice (price product);
                       link := link product;
                       source := source product;
                       thumbnail := thumbnail product;
                       rating := rating product;
                       prediction := Some trend |} :: rest')
          end
      end
  end.

(** The body of [if (response.data && response.data.<results>)], the same
    for the three providers but for [normalize].  The rows written by the
    first loop are in the database when the second loop reads the price
    history. *)
Definition processResults (provider : Provider) (results : list RawItem)
    (query : string) (now : Z) (db : Db.t) : SearchResult * Db.t :=
  let products := normalize provider results in
  let db' := fold_left (storeProduct now) products db in
  match addPredictions db' products with
  | None => (Unsettled, db')
  | Some products' => (Found (filterAndSortProducts products' query), db')
  end.

(** [performSerpApiSearch(query)]: [fetch] answers the requests, [now] is
    the clock.  The result comes with the database afterwards and the
    providers that were asked, in order.  ([SERP_API_KEY] always holds a
    key, so the first [throw] is never reached.) *)
Definition performSerpApiSearch (fetch : Provider -> string -> Response)
    (now : Z) (db : Db.t) (query : string)
    : SearchResult * Db.t * list Provider :=
  match fetch GoogleShopping query with
  | Body (Some results) =>
      (processResults GoogleShopping results query now db,
       [GoogleShopping])
  | _ =>
      match fetch Amazon query with
      | Body (Some results) =>
          (processResults Amazon results query now db,
           [GoogleShopping; Amazon])
      | _ =>
          match fetch eBay query with
          | Body (Some results) =>
              (processResults eBay results query now db,
               [GoogleShopping; Amazon; eBay])
          | _ =>
              (NoProducts
                 "No products found from any source. Please try a different search term.",
               db, [GoogleShopping; Amazon; eBay])
          end
      end
  end.

End Search.

(** *** [POST /wishlist/add] *)

Inductive Reply :=
  | ok (message : string)
  | error (status : nat) (message : string).

(** [userId] and [productId] are the fields of the request body. *)
Definition wishlistAdd (userId productId : option string) (now : Z)
    (db : Db.t) : Reply * Db.t :=
  if negb (truthy userId) || negb (truthy productId)
  then (error 400 "User ID and Product ID are required.", db)
  else
    let '(db', changes) :=
      Db.insert_or_ignore_wishlist (or_empty userId) (or_empty productId)
        now db in
    (ok (if (0 <? changes)%nat then "Added to wishlist."
         else "Already in wishlist."), db').

(** *** The price-drop worker *)

Record Mail := {
  mail_from : string;
  mail_to : string;
  mail_subject : string;
  mail_text : string
}.

Definition newline : string := String (ascii_of_nat 10) EmptyString.
Definition quote : string := String (ascii_of_nat 34) EmptyString.
Definition backslash : string := String (ascii_of_nat 92) EmptyString.

(** [`${price}`] for a column that may be [NULL]. *)
Definition shown (o : option string) : string :=
  match o with Some s => s | None => "null" end.

(** The message [sendPriceDropEmail] hands to [transporter.sendMail]; a
    failure of the transport is caught and logged there. *)
Definition sendPriceDropEmail (email name productTitle : string)
    (price : option string) : Mail :=
  {| mail_from := "SmartSpend <no-reply@smartspend.com>";
     mail_to := email;
     mail_subject := "Price Drop Alert!";
     mail_text :=
       "Hi " ++ name ++ "," ++ newline ++ newline ++
       "Good news! The price for " ++ quote ++ productTitle ++ quote ++
       " has dropped to " ++ shown price ++ "." ++ newline ++
       "Check it out on SmartSpend!" ++ backslash ++ "n" ++ newline ++
       "Best," ++ newline ++ "The SmartSpend Team" |}.

(** The test of the worker on a row. *)
Definition priceDropped (row : Db.ReminderRow) : bool :=
  let currentPrice :=
    parseFloat (keep_numeric (or_empty (Db.r_last_price row))) in
  let reminderPrice :=
    parseFloat (keep_numeric (Db.r_reminder_price row)) in
  negb (isNaN currentPrice) && negb (isNaN reminderPrice)
  && le currentPrice reminderPrice.

(** The function applied to each row: the state is the database and the
    mails handed to the transport so far. *)
Definition sweepRow (state : Db.t * list Mail) (row : Db.ReminderRow)
    : Db.t * list Mail :=
  let '(db, outbox) := state in
  if priceDropped row then
    (Db.update_cart_clear_reminder (Db.r_user_id row) (Db.r_product_id row) db,
     (outbox ++
      [sendPriceDropEmail (Db.r_email row) (Db.r_name row) (Db.r_title row)
         (Db.r_last_price row)])%list)
  else (db, outbox).

(** One run of the worker: the rows are read once, then handled. *)
Definition priceDropWorker (state : Db.t * list Mail) : Db.t * list Mail :=
  fold_left sweepRow (Db.select_reminders (fst state)) state.

(** *** [GET /search] and [POST /search-by-image] *)

(** What a route that sends data answers: the data, an error with its status
    and text, or nothing when the handler never gets to its answer. *)
Inductive Answer (A : Type) :=
  | Json (body : A)
  | Failure (status : nat) (message : string)
  | Silent.

Arguments Json {A} body.
Arguments Failure {A} status message.
Arguments Silent {A}.

(** [message || fallback]. *)
Definition message_or (message fallback : string) : string :=
  if nonempty message then message else fallback.

Section Routes.

Variable NumberToString : number -> string.

(** The [try] block the two search routes share, but for their texts. *)
Definition answerSearch (notFound failed : string)
    (fetch : Provider -> string -> Response) (now : Z) (db : Db.t)
    (query : string) : Answer (list Product) * Db.t :=
  match performSerpApiSearch NumberToString fetch now db query with
  | (Found products, db', _) =>
      if (List.length products =? 0)%nat
      then (Failure 404 notFound, db')
      else (Json products, db')
  | (NoProducts message, db', _) =>
      (Failure 500 (message_or message failed), db')
  | (Unsettled, db', _) => (Silent, db')
  end.


(** The stand-in for image recognition: the query is read off the name of
    the file. *)
Definition extractSearchQuery (originalname : string) : string :=
  let lowerCaseFileName := toLowerCase originalname in
  if includes lowerCaseFileName "samsung" && includes lowerCaseFileName "s25"
  then "Samsung Galaxy S25"
  else if includes lowerCaseFileName "iphone" then "iPhone 15"
  else if includes lowerCaseFileName "laptop"
          || includes lowerCaseFileName "computer"
  then "Laptop"
  else if includes lowerCaseFileName "shoe"
          || includes lowerCaseFileName "sneaker"
  then "running shoes"
  else if includes lowerCaseFileName "watch" then "smartwatch"
  else "electronics product".

(** [file] is the [originalname] of [req.file], when the upload left one. *)
Definition searchByImageRoute (file : option string)
    (fetch : Provider -> string -> Response) (now : Z) (db : Db.t)
    : Answer (list Product) * Db.t :=
  match file with
  | None => (Failure 400 "No image file uploaded.", db)
  | Some originalname =>
      let extractedSearchQuery := extractSearchQuery originalname in
      if negb (nonempty extractedSearchQuery)
      then (Failure 400
              "Could not identify a product from the image. Please try a different image or use text search.",
            db)
      else answerSearch
             "No products found for the image. Try a different image."
             "An error occurred while processing the image."
             fetch now db extractedSearchQuery
  end.

End Routes.

(** *** [GET /wishlist] and [DELETE /wishlist/remove] *)

(** The loop that adds the current prediction to each wish-listed product;
    it stops for good at a prediction that is never settled. *)
Fixpoint addWishlistPredictions (db : Db.t) (rows : list (Db.ProductRow * Z))
    : option (list (Db.ProductRow * Z * Trend)) :=
  match rows with
  | [] => Some []
  | (product, added_at) :: rest =>
      match getPricePrediction db (Db.p_id product)
              (Db.p_last_price product) with
      | None => None
      | Some trend =>
          match addWishlistPredictions db rest with
          | None => None
          | Some rest' => Some ((product, added_at, trend) :: rest')
          end
      end
  end.

Definition wishlistGet (userId : option string) (db : Db.t)
    : Answer (list (Db.ProductRow * Z * Trend)) :=
  if negb (truthy userId) then Failure 400 "User ID is required."
  else
    match addWishlistPredictions db
            (Db.select_wishlist (or_empty userId) db) with
    | Some rows => Json rows
    | None => Silent
    end.

Definition wishlistRemove (userId productId : option string) (db : Db.t)
    : Reply * Db.t :=
  if negb (truthy userId) || negb (truthy productId)
  then (error 400 "User ID and Product ID are required.", db)
  else
    let '(db', changes) :=
      Db.delete_wishlist (or_empty userId) (or_empty productId) db in
    (ok (if (0 <? changes)%nat then "Removed from wishlist."
         else "Not found in wishlist."), db').

(** *** [POST /cart/add] and [DELETE /cart/remove] *)

(** The truth value of a user id, a number that may be undefined. *)
Definition truthyId (userId : option Z) : bool :=
  match userId with
  | Some n => negb (n =? 0)%Z
  | None => false
  end.

Definition id_or_zero (userId : option Z) : Z :=
  match userId with Some n => n | None => 0%Z end.

(** [userId] is the number in the request body; [reminderPrice] is [None]
    when the body has none, which the handler stores as [NULL]. *)
Definition cartAdd (userId : option Z) (productId reminderPrice : option string)
    (now : Z) (db : Db.t) : Reply * Db.t :=
  if negb (truthyId userId) || negb (truthy productId)
  then (error 400 "User ID and Product ID are required.", db)
  else if negb (Db.product_exists (or_empty productId) db)
  then (error 404 "Product not found. Please search for it first.", db)
  else if negb (Db.customer_exists (id_or_zero userId) db)
  then (error 404 "User not found. Please log in.", db)
  else
    (ok "Cart updated successfully.",
     Db.insert_or_replace_cart
       {| Db.c_user_id := id_or_zero userId;
          Db.c_product_id := or_empty productId;
          Db.c_reminder_price := reminderPrice;
          Db.c_added_at := now |} db).

Definition cartRemove (userId : option Z) (productId : option string)
    (db : Db.t) : Reply * Db.t :=
  if negb (truthyId userId) || negb (truthy productId)
  then (error 400 "User ID and Product ID are required.", db)
  else
    let '(db', changes) :=
      Db.delete_cart (id_or_zero userId) (or_empty productId) db in
    (ok (if (0 <? changes)%nat then "Removed from cart."
         else "Not found in cart."), db').

(** *** [POST /register] and [POST /login] *)

(** The message [sendWelcomeEmail] hands to [transporter.sendMail]. *)
Definition sendWelcomeEmail (email name : string) : Mail :=
  {| mail_from := "SmartSpend <no-reply@smartspend.com>";
     mail_to := email;
     mail_subject := "Welcome to SmartSpend!";
     mail_text :=
       "Hi " ++ name ++ "," ++ newline ++ newline ++
       "Welcome to SmartSpend! Start tracking prices and saving today." ++
       newline ++ newline ++ "Best," ++ newline ++ "The SmartSpend Team" |}.

(** What [POST /login] sends back. *)
Record Account := {
  account_id : Z;
  account_name : string;
  account_email : string
}.

Section Accounts.

(** [bcrypt.hash(password, 10)] and [bcrypt.compare(password, hash)]: the
    library is not part of the server and is kept abstract; the salt that
    [bcrypt.hash] draws is part of the abstract function. *)
Variable bcrypt_hash : string -> string.
Variable bcrypt_compare : string -> string -> bool.

(** The state is the database and the mails handed to the transport. *)
Definition register (name email password : option string) (now : Z)
    (state : Db.t * list Mail) : Reply * (Db.t * list Mail) :=
  if negb (truthy name) || negb (truthy email) || negb (truthy password)
  then (error 400 "Name, email, and password are required.", state)
  else
    let password_hash := bcrypt_hash (or_empty password) in
    match Db.insert_customer (or_empty name) (or_empty email) password_hash
            now (fst state) with
    | None => (error 409 "Email already registered.", state)
    | Some db' =>
        (ok "Registration successful!",
         (db',
          (snd state ++ [sendWelcomeEmail (or_empty email) (or_empty name)])
            %list))
    end.

Definition login (email password : option string) (db : Db.t)
    : Answer Account :=
  if negb (truthy email) || negb (truthy password)
  then Failure 400 "Email and password are required."
  else
    match Db.select_customer_by_email (or_empty email) db with
    | None => Failure 401 "Invalid email or password."
    | Some user =>
        if bcrypt_compare (or_empty password) (Db.cu_password_hash user)
        then Json {| account_id := Db.cu_id user;
                     account_name := Db.cu_name user;
                     account_email := Db.cu_email user |}
        else Failure 401 "Invalid email or password."
    end.

End Accounts.

(** ** Notions used to state the properties *)

(** The numbers the trend rule reads for a product: the prices that parse
    among the five most recent price points at most. *)
Definition parsedHistory (db : Db.t) (productId : string) : list number :=
  filter (fun p => negb (isNaN p))
    (map (fun row => parseFloat (keep_numeric row))
       (Db.select_recent_prices db productId)).

Definition mean (xs : list number) : number :=
  div (sum xs) (ofZ (Z.of_nat (List.length xs))).

(** The trend rule as the specification words it: five branches tried in
    order over the current price [c] and the minimum, maximum and mean of the
    history. *)
Definition firstMatchingBranch (c lowest highest average : number) : Trend :=
  if le c (mul lowest (decimal 105 2)) then buy
  else if ge c (mul highest (decimal 95 2)) then wait
  else if lt c (mul average (decimal 98 2)) then buy
  else if gt c (mul average (decimal 102 2)) then wait
  else neutral.

(** A string with a digit in it. *)
Fixpoint hasDigit (s : string) : bool :=
  match s with
  | EmptyString => false
  | String c s' => is_digit c || hasDigit s'
  end.

(** A response that carries the results field of its provider. *)
Definition hasResults (r : Response) : bool :=
  match r with
  | Body (Some _) => true
  | _ => false
  end.

(** The providers in priority order up to the first whose response carries
    its results field, that one included. *)
Fixpoint askedAmong (fetch : Provider -> string -> Response) (query : string)
    (providers : list Provider) : list Provider :=
  match providers with
  | [] => []
  | p :: rest =>
      if hasResults (fetch p query) then [p]
      else p :: askedAmong fetch query rest
  end.

(** The wish-list entries of a user for a product. *)
Definition wishlistEntries (db : Db.t) (userId productId : string)
    : list Db.WishlistRow :=
  filter (Db.wishlist_has userId productId) (Db.wishlists db).

(** The cart rows of a user for a product. *)
Definition cartEntries (db : Db.t) (userId : Z) (productId : string)
    : list Db.CartRow :=
  filter (Db.cart_has userId productId) (Db.cart db).





(** A product with a title and a price and nothing else. *)
Definition listing (title price : string) : Product :=
  {| id := productId title "" "";
     title := title;
     price := Some price;
     link := "";
     source := "";
     thumbnail := None;
     rating := None;
     prediction := None |}.

(** A database whose only content is the price history of product ["p"]:
    three price points that parse and one that does not. *)
Definition historyExample : Db.t :=
  {| Db.products := [];
     Db.price_history :=
       [ {| Db.h_product_id := "p"; Db.h_price := "100"; Db.h_timestamp := 1 |};
         {| Db.h_product_id := "p"; Db.h_price := "free"; Db.h_timestamp := 2 |};
         {| Db.h_product_id := "p"; Db.h_price := "100"; Db.h_timestamp := 3 |};
         {| Db.h_product_id := "p"; Db.h_price := "50"; Db.h_timestamp := 4 |} ];
     Db.wishlists := [];
     Db.customers := [];
     Db.cart := [] |}.

(** A database that holds three price points for the product that
    [itemExample "Phone"] becomes at Google Shopping. *)
Definition pricelessExample : Db.t :=
  {| Db.products := [];
     Db.price_history :=
       map (fun t =>
              {| Db.h_product_id :=
                   productId "Phone" "Shop" "https://shop.example/Phone";
                 Db.h_price := "100"; Db.h_timestamp := t |})
         [1%Z; 2%Z; 3%Z];
     Db.wishlists := [];
     Db.customers := [];
     Db.cart := [] |}.

(** A database with one product last seen at 45000 rupees and one customer
    who keeps it in the cart with a reminder at 50000 rupees; the row the
    worker reads for it. *)
Definition cartExample : Db.t :=
  {| Db.products :=
       [ {| Db.p_id := "cDE="; Db.p_title := "Phone";
            Db.p_thumbnail := None; Db.p_link := "https://shop.example/p1";
            Db.p_source := "Shop";
            Db.p_last_price := Some (rupee ++ "45000");
            Db.p_last_updated := 10 |} ];
     Db.price_history := [];
     Db.wishlists := [];
     Db.customers :=
       [ {| Db.cu_id := 1; Db.cu_name := "Asha";
            Db.cu_email := "asha@example.org";
            Db.cu_password_hash := "hash"; Db.cu_created_at := 5 |} ];
     Db.cart :=
       [ {| Db.c_user_id := 1; Db.c_product_id := "cDE=";
            Db.c_reminder_price := Some (rupee ++ "50000");
            Db.c_added_at := 20 |} ] |}.

Definition reminderExample : Db.ReminderRow :=
  {| Db.r_user_id := 1; Db.r_product_id := "cDE=";
     Db.r_reminder_price := rupee ++ "50000";
     Db.r_title := "Phone";
     Db.r_last_price := Some (rupee ++ "45000");
     Db.r_email := "asha@example.org";
     Db.r_name := "Asha" |}.

(** An upstream item with a title, a price and a thumbnail that may both be
    absent. *)
Definition itemExample (title : string) (price thumbnail : option string)
    : RawItem :=
  {| item_title := title;
     item_price := price;
     item_link := "https://shop.example/" ++ title;
     item_product_link := "https://shop.example/" ++ title;
     item_source := "Shop";
     item_thumbnail := thumbnail;
     item_image := None;
     item_rating := None |}.

(** Google Shopping answers with an empty list while Amazon has a product. *)
Definition emptyFirst (provider : Provider) (query : string) : Response :=
  match provider with
  | GoogleShopping => Body (Some [])
  | Amazon => Body (Some [itemExample "Phone" (Some "100") (Some "t.png")])
  | eBay => RequestFailed
  end.

(** Google Shopping fails, Amazon answers without results field, eBay has a
    product. *)
Definition onlyLast (provider : Provider) (query : string) : Response :=
  match provider with
  | GoogleShopping => RequestFailed
  | Amazon => Body None
  | eBay => Body (Some [itemExample "Phone" (Some "100") (Some "t.png")])
  end.

(** Google Shopping fails, Amazon answers without results field, and the one
    item eBay has lacks a thumbnail. *)
Definition onlyUnpictured (provider : Provider) (query : string) : Response :=
  match provider with
  | GoogleShopping => RequestFailed
  | Amazon => Body None
  | eBay => Body (Some [itemExample "Phone" (Some "100") None])
  end.

(** A stand-in for [Number::toString] where no value of [10^21] or more is
    formatted. *)
Definition unusedToString (x : number) : string := "".


(** A string with a dash in it. *)
Fixpoint hasDash (s : string) : bool :=
  match s with
  | EmptyString => false
  | String c s' => Ascii.eqb c "-"%char || hasDash s'
  end.

(** The primary keys and the unique column of the schema. *)
Definition uniqueProducts (db : Db.t) : Prop :=
  NoDup (map Db.p_id (Db.products db)).

Definition uniqueWishlist (db : Db.t) : Prop :=
  NoDup (map (fun w => (Db.w_user_id w, Db.w_product_id w))
           (Db.wishlists db)).

Definition uniqueCart (db : Db.t) : Prop :=
  NoDup (map (fun c => (Db.c_user_id c, Db.c_product_id c)) (Db.cart db)).

Definition uniqueCustomers (db : Db.t) : Prop :=
  NoDup (map Db.cu_id (Db.customers db))
  /\ NoDup (map Db.cu_email (Db.customers db)).

(** The foreign keys of the cart: every row names a product and a customer
    that exist. *)
Definition cartRefers (db : Db.t) : Prop :=
  forall c, In c (Db.cart db) ->
    Db.product_exists (Db.c_product_id c) db = true
    /\ Db.customer_exists (Db.c_user_id c) db = true.

(** The row and the price point the search writes for a product. *)
Definition productRow (now : Z) (p : Product) : Db.ProductRow :=
  {| Db.p_id := id p;
     Db.p_title := title p;
     Db.p_thumbnail := thumbnail p;
     Db.p_link := link p;
     Db.p_source := source p;
     Db.p_last_price := price p;
     Db.p_last_updated := now |}.

Definition pricePoints (now : Z) (p : Product) : list Db.PricePoint :=
  match price p with
  | Some raw =>
      [{| Db.h_product_id := id p; Db.h_price := raw;
          Db.h_timestamp := now |}]
  | None => []
  end.

(** The mail the worker sends for a row. *)
Definition mailFor (row : Db.ReminderRow) : Mail :=
  sendPriceDropEmail (Db.r_email row) (Db.r_name row) (Db.r_title row)
    (Db.r_last_price row).

(** A cart row once its reminder is cleared, and whether one of the rows
    the worker read asks for that: its price has dropped and it is a row of
    the same user and product. *)
Definition withoutReminder (c : Db.CartRow) : Db.CartRow :=
  {| Db.c_user_id := Db.c_user_id c;
     Db.c_product_id := Db.c_product_id c;
     Db.c_reminder_price := None;
     Db.c_added_at := Db.c_added_at c |}.

Definition dropsFor (rows : list Db.ReminderRow) (c : Db.CartRow) : bool :=
  existsb (fun r => priceDropped r
                    && Db.cart_has (Db.r_user_id r) (Db.r_product_id r) c)
    rows.

(** * Properties *)

(** ** The trend rule *)

Lemma isLessThan_NaN_l (x : number) : isLessThan NaN x = None.
Proof. reflexivity. Qed.

Lemma isLessThan_NaN_r (x : number) : isLessThan x NaN = None.
Proof. destruct x; reflexivity. Qed.

Lemma onPriceHistory_rule (cur : string) (rows : list string) :
  let prices :=
    filter (fun p => negb (isNaN p))
      (map (fun row => parseFloat (keep_numeric row)) rows) in
  (3 <= List.length prices)%nat ->
  onPriceHistory (Some cur) (Rows rows) =
  Some (firstMatchingBranch (parseFloat (keep_numeric cur))
          (Math_min prices) (Math_max prices) (mean prices)).
Proof.
  intros prices Hlen.
  assert (Hrows : (3 <= List.length rows)%nat).
  { subst prices.
    etransitivity; [exact Hlen|].
    etransitivity; [apply filter_length_le|].
    rewrite length_map. apply Nat.le_refl. }
  unfold onPriceHistory.
  destruct (Nat.ltb_spec (List.length rows) 3) as [Hlt|_]; [lia|].
  fold prices.
  destruct (Nat.ltb_spec (List.length prices) 3) as [Hlt|_]; [lia|].
  unfold firstMatchingBranch, mean.
  destruct (le _ _); [reflexivity|].
  destruct (ge _ _); [reflexivity|].
  destruct (lt _ _); [reflexivity|].
  destruct (gt _ _); reflexivity.
Qed.


Lemma read_digits_no_digit (s : string) (acc : Z) (n : nat) :
  hasDigit s = false -> read_digits s acc n = (acc, n, s).
Proof.
  destruct s as [|c s']; [reflexivity|].
  simpl. intros H. apply orb_false_elim in H as [Hc _].
  rewrite Hc. reflexivity.
Qed.

Lemma parseFloat_no_digit (s : string) :
  hasDigit s = false -> parseFloat s = NaN.
Proof.
  intros H. unfold parseFloat.
  rewrite (read_digits_no_digit s 0 O H).
  destruct s as [|c frac]; [reflexivity|].
  simpl in H. apply orb_false_elim in H as [_ Hfrac].
  destruct c as [[] [] [] [] [] [] [] []]; try reflexivity.
  rewrite (read_digits_no_digit frac 0 O Hfrac). reflexivity.
Qed.

Lemma hasDigit_keep_numeric (s : string) :
  hasDigit s = false -> hasDigit (keep_numeric s) = false.
Proof.
  induction s as [|c s' IH]; [reflexivity|].
  simpl. intros H. apply orb_false_elim in H as [Hc Hs].
  rewrite Hc. simpl.
  destruct (Ascii.eqb c "."); [simpl; rewrite Hc|]; auto.
Qed.

Lemma firstMatchingBranch_NaN (lowest highest average : number) :
  firstMatchingBranch NaN lowest highest average = neutral.
Proof.
  unfold firstMatchingBranch, le, ge, lt, gt.
  rewrite !isLessThan_NaN_l, !isLessThan_NaN_r. reflexivity.
Qed.



(** C10.  When at least three of the five most recent price points of a
    product parse to numbers and the current price has no digit in it, the
    current price parses to NaN, none of the comparisons holds and the
    prediction is neutral. *)
Theorem getPricePrediction_no_digit_neutral
    (db : Db.t) (productId currentPrice : string) :
  (3 <= List.length (parsedHistory db productId))%nat ->
  hasDigit currentPrice = false ->
  parseFloat (keep_numeric currentPrice) = NaN
  /\ getPricePrediction db productId (Some currentPrice) = Some neutral.
Proof.
  intros Hlen Hdigit.
  assert (Hnan : parseFloat (keep_numeric currentPrice) = NaN)
    by (apply parseFloat_no_digit, hasDigit_keep_numeric, Hdigit).
  split; [exact Hnan|].
  unfold getPricePrediction.
  rewrite (onPriceHistory_rule currentPrice
             (Db.select_recent_prices db productId) Hlen).
  rewrite Hnan, firstMatchingBranch_NaN. reflexivity.
Qed.

Lemma getPricePrediction_no_digit_neutral_witness :
  getPricePrediction historyExample "p" (Some "Rs. n/a") = Some neutral.
Proof.
  assert (H : (3 <= List.length (parsedHistory historyExample "p"))%nat)
    by (vm_compute; apply le_n).
  exact (proj2 (getPricePrediction_no_digit_neutral historyExample "p"
                  "Rs. n/a" H eq_refl)).
Defined.

(** ** The ranker on given lists *)

(** C6 (as the code behaves).  For the query ["iphone 15"] and the listings
    "iPhone 15 Pro" at 80000, "iPhone 15 case" at 500 and "Samsung S25" at
    70000, the ranker puts the one relevant listing first and orders the two
    others, which are equally not relevant, by ascending price: the case
    comes before the Samsung. *)
Theorem filterAndSortProducts_iphone_15 :
  map title
    (filterAndSortProducts
       [listing "iPhone 15 Pro" "80000"; listing "iPhone 15 case" "500";
        listing "Samsung S25" "70000"] "iphone 15")
  = ["iPhone 15 Pro"; "iPhone 15 case"; "Samsung S25"].
Proof. vm_compute. reflexivity. Qed.

(** Against C6 as stated.  The order is not Pro, Samsung, case. *)
Lemma filterAndSortProducts_iphone_15_not_as_claimed :
  map title
    (filterAndSortProducts
       [listing "iPhone 15 Pro" "80000"; listing "iPhone 15 case" "500";
        listing "Samsung S25" "70000"] "iphone 15")
  <> ["iPhone 15 Pro"; "Samsung S25"; "iPhone 15 case"].
Proof. vm_compute. discriminate. Qed.

(** C3 (where the code departs from it).  Two listings of equal relevance
    priced 0 and 5: the price 0 parses to the number 0, yet the ranker puts
    the listing priced 5 first, because [0 || Infinity] is [Infinity]. *)
Theorem filterAndSortProducts_zero_price_last :
  isRelevant "phone" "phone a" = isRelevant "phone" "phone b"
  /\ parseFloat (keep_numeric "0") = zero
  /\ lt (parseFloat (keep_numeric "0")) (parseFloat (keep_numeric "5")) = true
  /\ map title
       (filterAndSortProducts
          [listing "phone a" "0"; listing "phone b" "5"] "phone")
     = ["phone b"; "phone a"].
Proof. vm_compute. repeat split. Qed.

(** ** The wish list *)

Lemma existsb_filter_nil {A : Type} (f : A -> bool) (l : list A) :
  filter f l = [] -> existsb f l = false.
Proof.
  induction l as [|x l IH]; [reflexivity|].
  simpl. destruct (f x); [discriminate|]. exact IH.
Qed.

Lemma wishlist_has_refl (userId productId : string) (t : Z) :
  Db.wishlist_has userId productId
    {| Db.w_user_id := userId; Db.w_product_id := productId;
       Db.w_added_at := t |} = true.
Proof.
  unfold Db.wishlist_has. simpl. rewrite !String.eqb_refl. reflexivity.
Qed.

Lemma truthy_Some (s : string) : s <> "" -> truthy (Some s) = true.
Proof. destruct s; [congruence|reflexivity]. Qed.

Lemma existsb_filter_cons {A : Type} (f : A -> bool) (l : list A) :
  filter f l <> [] -> existsb f l = true.
Proof.
  induction l as [|x l IH]; [intros H; contradiction H; reflexivity|].
  simpl. destruct (f x); [reflexivity|]. exact IH.
Qed.

Lemma wishlistAdd_present (db : Db.t) (userId productId : string) (t : Z) :
  userId <> "" -> productId <> "" ->
  wishlistEntries db userId productId <> [] ->
  wishlistAdd (Some userId) (Some productId) t db
  = (ok "Already in wishlist.", db).
Proof.
  intros Hu Hp Hpresent. unfold wishlistAdd.
  rewrite (truthy_Some _ Hu), (truthy_Some _ Hp). simpl.
  unfold Db.insert_or_ignore_wishlist.
  rewrite (existsb_filter_cons _ _ Hpresent). reflexivity.
Qed.

Lemma wishlistAdd_absent (db : Db.t) (userId productId : string) (t : Z) :
  userId <> "" -> productId <> "" ->
  wishlistEntries db userId productId = [] ->
  fst (wishlistAdd (Some userId) (Some productId) t db)
  = ok "Added to wishlist."
  /\ wishlistEntries (snd (wishlistAdd (Some userId) (Some productId) t db))
       userId productId
     = [{| Db.w_user_id := userId; Db.w_product_id := productId;
           Db.w_added_at := t |}].
Proof.
  intros Hu Hp Habsent. unfold wishlistAdd.
  rewrite (truthy_Some _ Hu), (truthy_Some _ Hp). simpl.
  unfold Db.insert_or_ignore_wishlist.
  rewrite (existsb_filter_nil _ _ Habsent). simpl.
  split; [reflexivity|].
  unfold wishlistEntries in *. simpl.
  rewrite filter_app, Habsent. simpl.
  rewrite wishlist_has_refl. reflexivity.
Qed.

(** C9.  For a user and a product that pass the check of the handler,
    adding the pair twice ends with the answer "Already in wishlist." (not an
    error) and the second call does not change the database.  When the pair
    is not in the wish list before, the first call answers "Added to
    wishlist." and one entry is left for the pair, with the time of the first
    call.  When the pair is in the wish list before, the first call answers
    "Already in wishlist." too and leaves the database, hence the entry and
    its time, as it is. *)
Theorem wishlistAdd_twice
    (db : Db.t) (userId productId : string) (t1 t2 : Z) :
  userId <> "" -> productId <> "" ->
  let first := wishlistAdd (Some userId) (Some productId) t1 db in
  let second := wishlistAdd (Some userId) (Some productId) t2 (snd first) in
  fst second = ok "Already in wishlist."
  /\ snd second = snd first
  /\ (wishlistEntries db userId productId = [] ->
      fst first = ok "Added to wishlist."
      /\ wishlistEntries (snd second) userId productId =
         [{| Db.w_user_id := userId; Db.w_product_id := productId;
             Db.w_added_at := t1 |}])
  /\ (wishlistEntries db userId productId <> [] ->
      fst first = ok "Already in wishlist." /\ snd second = db).
Proof.
  intros Hu Hp first second.
  assert (Hafter : wishlistEntries (snd first) userId productId <> []).
  { destruct (wishlistEntries db userId productId) eqn:E.
    - subst first.
      rewrite (proj2 (wishlistAdd_absent db userId productId t1 Hu Hp E)).
      discriminate.
    - subst first. rewrite wishlistAdd_present; [|assumption..|].
      + simpl. rewrite E. discriminate.
      + rewrite E. discriminate. }
  assert (Hsecond : second = (ok "Already in wishlist.", snd first))
    by (apply wishlistAdd_present; assumption).
  rewrite Hsecond. simpl.
  split; [reflexivity|]. split; [reflexivity|]. split.
  - intros Habsent.
    exact (wishlistAdd_absent db userId productId t1 Hu Hp Habsent).
  - intros Hpresent. subst first.
    rewrite wishlistAdd_present by assumption. split; reflexivity.
Qed.

Lemma wishlistAdd_twice_witness :
  let first := wishlistAdd (Some "7") (Some "cDE=") 1000 Db.empty in
  let second := wishlistAdd (Some "7") (Some "cDE=") 2000 (snd first) in
  fst first = ok "Added to wishlist."
  /\ fst second = ok "Already in wishlist."
  /\ wishlistEntries (snd second) "7" "cDE=" =
     [{| Db.w_user_id := "7"; Db.w_product_id := "cDE=";
         Db.w_added_at := 1000 |}].
Proof.
  destruct (wishlistAdd_twice Db.empty "7" "cDE=" 1000 2000)
    as (Hsecond & _ & Habsent & _); [discriminate..|].
  destruct (Habsent eq_refl) as [Hfirst Hentries].
  repeat split; assumption.
Defined.

(** ** The price-drop worker *)

Lemma cart_has_clear_reminder (u : Z) (p : string) (c : Db.CartRow) :
  Db.cart_has u p (Db.clear_reminder u p c) = Db.cart_has u p c.
Proof.
  unfold Db.clear_reminder.
  destruct (Db.cart_has u p c) eqn:E; [|exact E].
  unfold Db.cart_has in *. simpl. exact E.
Qed.

Lemma cartEntries_cleared (u : Z) (p : string) (rows : list Db.CartRow) :
  filter (Db.cart_has u p) (map (Db.clear_reminder u p) rows) =
  map (Db.clear_reminder u p) (filter (Db.cart_has u p) rows).
Proof.
  induction rows as [|c rows IH]; [reflexivity|].
  simpl. rewrite cart_has_clear_reminder.
  destruct (Db.cart_has u p c); simpl; rewrite IH; reflexivity.
Qed.

Lemma clear_reminder_None (u : Z) (p : string) (c : Db.CartRow) :
  Db.cart_has u p c = true ->
  Db.c_reminder_price (Db.clear_reminder u p c) = None.
Proof. intros H. unfold Db.clear_reminder. rewrite H. reflexivity. Qed.

Lemma clear_reminder_other (u : Z) (p : string) (c : Db.CartRow) :
  Db.cart_has u p c = false -> Db.clear_reminder u p c = c.
Proof. intros H. unfold Db.clear_reminder. rewrite H. reflexivity. Qed.

Lemma select_reminders_cart (db : Db.t) (row : Db.ReminderRow) :
  In row (Db.select_reminders db) ->
  exists c, In c (Db.cart db)
            /\ Db.cart_has (Db.r_user_id row) (Db.r_product_id row) c = true
            /\ Db.c_reminder_price c = Some (Db.r_reminder_price row).
Proof.
  unfold Db.select_reminders. intros H.
  apply in_flat_map in H as (c & Hc & H).
  destruct (Db.c_reminder_price c) as [reminder|] eqn:Hrem; [|contradiction].
  apply in_flat_map in H as (p & _ & H).
  destruct (String.eqb (Db.c_product_id c) (Db.p_id p)); [|contradiction].
  apply in_flat_map in H as (cu & _ & H).
  destruct (Db.c_user_id c =? Db.cu_id cu)%Z; [|contradiction].
  destruct H as [H|[]]. subst row. simpl.
  exists c. split; [exact Hc|]. split; [|exact Hrem].
  unfold Db.cart_has. rewrite Z.eqb_refl, String.eqb_refl. reflexivity.
Qed.

(** C8.  One step of the worker on a row it read (a cart row with a reminder
    price, joined with its product and customer).  When the last price and
    the reminder price both parse to numbers and the last price is at most
    the reminder price, one mail is handed to the transport, addressed to the
    customer, and afterwards every cart row of that user and product has no
    reminder price, the cart keeping its rows otherwise.  In every other case
    no mail is sent and the database is unchanged. *)
Theorem sweepRow_price_drop
    (db : Db.t) (outbox : list Mail) (row : Db.ReminderRow) :
  In row (Db.select_reminders db) ->
  let currentPrice :=
    parseFloat (keep_numeric (or_empty (Db.r_last_price row))) in
  let reminderPrice := parseFloat (keep_numeric (Db.r_reminder_price row)) in
  let user := Db.r_user_id row in
  let product := Db.r_product_id row in
  let after := sweepRow (db, outbox) row in
  (exists c, In c (cartEntries db user product)
             /\ Db.c_reminder_price c = Some (Db.r_reminder_price row))
  /\
  (isNaN currentPrice = false /\ isNaN reminderPrice = false
   /\ le currentPrice reminderPrice = true ->
   (exists mail, snd after = (outbox ++ [mail])%list
                 /\ mail_to mail = Db.r_email row)
   /\ List.length (cartEntries (fst after) user product) =
      List.length (cartEntries db user product)
   /\ (forall c, In c (cartEntries (fst after) user product) ->
                 Db.c_reminder_price c = None)
   /\ (forall c, Db.cart_has user product c = false ->
                 (In c (Db.cart (fst after)) <-> In c (Db.cart db)))
   /\ Db.products (fst after) = Db.products db
   /\ Db.customers (fst after) = Db.customers db)
  /\
  (~ (isNaN currentPrice = false /\ isNaN reminderPrice = false
      /\ le currentPrice reminderPrice = true) ->
   after = (db, outbox)).
Proof.
  intros Hrow currentPrice reminderPrice user product after.
  split.
  { destruct (select_reminders_cart db row Hrow) as (c & Hin & Hhas & Hrem).
    exists c. split; [|exact Hrem].
    unfold cartEntries. apply filter_In. split; assumption. }
  split.
  - intros (Hcur & Hrem & Hle).
    assert (Hafter :
      after =
      (Db.update_cart_clear_reminder user product db,
       (outbox ++
        [sendPriceDropEmail (Db.r_email row) (Db.r_name row)
           (Db.r_title row) (Db.r_last_price row)])%list)).
    { subst after. unfold sweepRow, priceDropped.
      fold currentPrice reminderPrice.
      rewrite Hcur, Hrem, Hle. reflexivity. }
    rewrite Hafter. simpl.
    split; [eexists; split; reflexivity|].
    unfold cartEntries. simpl. rewrite cartEntries_cleared.
    split; [apply length_map|].
    split.
    + intros c Hc. apply in_map_iff in Hc as (c0 & <- & Hc0).
      apply filter_In in Hc0 as [_ Hhas].
      apply clear_reminder_None, Hhas.
    + split; [|split; reflexivity].
      intros c Hc. rewrite in_map_iff. split.
      * intros (c0 & Heq & Hin).
        destruct (Db.cart_has user product c0) eqn:E.
        -- rewrite <- Heq, cart_has_clear_reminder in Hc. congruence.
        -- rewrite (clear_reminder_other _ _ _ E) in Heq. congruence.
      * intros Hin. exists c. split; [|exact Hin].
        apply clear_reminder_other, Hc.
  - intros Hnot. subst after. unfold sweepRow, priceDropped.
    fold currentPrice reminderPrice.
    destruct (isNaN currentPrice); simpl; [reflexivity|].
    destruct (isNaN reminderPrice); simpl; [reflexivity|].
    destruct (le currentPrice reminderPrice); [|reflexivity].
    exfalso. apply Hnot. repeat split.
Qed.

Lemma sweepRow_price_drop_witness :
  (exists mail,
      snd (sweepRow (cartExample, []) reminderExample) = ([] ++ [mail])%list
      /\ mail_to mail = "asha@example.org")
  /\ forall c,
       In c (cartEntries (fst (sweepRow (cartExample, []) reminderExample))
               1 "cDE=") ->
       Db.c_reminder_price c = None.
Proof.
  assert (Hin : In reminderExample (Db.select_reminders cartExample))
    by (left; reflexivity).
  destruct (sweepRow_price_drop cartExample [] reminderExample Hin)
    as (_ & Hdrop & _).
  assert (Hcond :
    isNaN (parseFloat (keep_numeric
             (or_empty (Db.r_last_price reminderExample)))) = false
    /\ isNaN (parseFloat (keep_numeric
                (Db.r_reminder_price reminderExample))) = false
    /\ le (parseFloat (keep_numeric
             (or_empty (Db.r_last_price reminderExample))))
          (parseFloat (keep_numeric
             (Db.r_reminder_price reminderExample))) = true)
    by (vm_compute; repeat split).
  destruct (Hdrop Hcond) as (Hmail & _ & Hnone & _).
  split; [exact Hmail|exact Hnone].
Defined.

(** ** The provider adapters *)

(** Against C4 as stated.  An eBay item with a price and no thumbnail is
    dropped. *)
Lemma normalize_eBay_drops_priced_item :
  truthy (item_price (itemExample "Phone" (Some "100") None)) = true
  /\ normalize eBay [itemExample "Phone" (Some "100") None] = [].
Proof. split; reflexivity. Qed.

(** C4 (as the code behaves).  The eBay adapter keeps an item of the results
    exactly when the item has both a price and a thumbnail (neither undefined
    nor empty): an item that lacks either one is dropped.  The two other
    adapters keep every item. *)
Theorem normalize_eBay_keeps_priced_with_thumbnail
    (results : list RawItem) (item : RawItem) :
  In item results ->
  (In (ebayProduct item) (normalize eBay results) <->
   truthy (item_price item) = true /\ truthy (item_thumbnail item) = true)
  /\ In (googleProduct item) (normalize GoogleShopping results)
  /\ In (amazonProduct item) (normalize Amazon results).
Proof.
  intros Hin. split; [|split; apply in_map, Hin].
  unfold normalize. rewrite in_map_iff. split.
  - intros (item' & Heq & Hin').
    apply filter_In in Hin' as [_ Hkeep].
    apply andb_true_iff in Hkeep.
    assert (Hprice : price (ebayProduct item') = price (ebayProduct item))
      by (rewrite Heq; reflexivity).
    assert (Hthumb :
      thumbnail (ebayProduct item') = thumbnail (ebayProduct item))
      by (rewrite Heq; reflexivity).
    simpl in Hprice, Hthumb. rewrite <- Hprice, <- Hthumb. exact Hkeep.
  - intros [Hprice Hthumb]. exists item. split; [reflexivity|].
    apply filter_In. split; [exact Hin|].
    rewrite Hprice, Hthumb. reflexivity.
Qed.

Lemma normalize_eBay_keeps_priced_with_thumbnail_witness :
  In (ebayProduct (itemExample "Phone" (Some "100") (Some "t.png")))
    (normalize eBay
       [itemExample "Case" None None;
        itemExample "Phone" (Some "100") (Some "t.png")]).
Proof.
  apply (normalize_eBay_keeps_priced_with_thumbnail
           [itemExample "Case" None None;
            itemExample "Phone" (Some "100") (Some "t.png")]
           (itemExample "Phone" (Some "100") (Some "t.png"))).
  - right. left. reflexivity.
  - split; reflexivity.
Defined.

(** ** The fallback over the providers *)

Lemma processResults_settles (NumberToString : number -> string)
    (provider : Provider) (results : list RawItem) (query : string)
    (now : Z) (db : Db.t) (message : string) :
  fst (processResults NumberToString provider results query now db)
  <> NoProducts message.
Proof.
  unfold processResults.
  destruct (addPredictions _ _ _); simpl; discriminate.
Qed.

(** Against C1 as stated.  Google Shopping returns an empty list and Amazon
    has a product, yet Amazon is not asked and the search returns the empty
    list.  And when the first two providers give nothing and the list of
    eBay is empty once normalized, the search returns the empty list instead
    of failing. *)
Lemma performSerpApiSearch_empty_first :
  (normalize GoogleShopping [] = []
   /\ normalize Amazon [itemExample "Phone" (Some "100") (Some "t.png")] <> []
   /\ performSerpApiSearch unusedToString emptyFirst 0 Db.empty "phone"
      = (Found [], Db.empty, [GoogleShopping]))
  /\
  (normalize eBay [itemExample "Phone" (Some "100") None] = []
   /\ performSerpApiSearch unusedToString onlyUnpictured 0 Db.empty "phone"
      = (Found [], Db.empty, [GoogleShopping; Amazon; eBay])).
Proof. repeat split. discriminate. Qed.

(** C1 (as the code behaves).  The search asks Google Shopping, Amazon and
    eBay in this order and stops at the first provider whose response carries
    its results field, whatever the list holds: the outcome is then the
    outcome of handling these results.  A failed request and a response
    without the field both lead to the next provider.  The search ends with
    the no-products error exactly when no provider answered with its results
    field.  When Google Shopping answers with an empty list, no other
    provider is asked and the empty list is returned. *)
Theorem performSerpApiSearch_fallback
    (NumberToString : number -> string)
    (fetch : Provider -> string -> Response)
    (now : Z) (db : Db.t) (query : string) :
  let outcome := performSerpApiSearch NumberToString fetch now db query in
  let handled p results :=
    processResults NumberToString p results query now db in
  snd outcome = askedAmong fetch query [GoogleShopping; Amazon; eBay]
  /\ ((exists message, fst (fst outcome) = NoProducts message) <->
      (forall p, hasResults (fetch p query) = false))
  /\ (forall results,
        fetch GoogleShopping query = Body (Some results) ->
        fst outcome = handled GoogleShopping results)
  /\ (forall results,
        hasResults (fetch GoogleShopping query) = false ->
        fetch Amazon query = Body (Some results) ->
        fst outcome = handled Amazon results)
  /\ (forall results,
        hasResults (fetch GoogleShopping query) = false ->
        hasResults (fetch Amazon query) = false ->
        fetch eBay query = Body (Some results) ->
        fst outcome = handled eBay results)
  /\ (fetch GoogleShopping query = Body (Some []) ->
      outcome = (Found [], db, [GoogleShopping])).
Proof.
  intros outcome handled. subst outcome handled.
  unfold performSerpApiSearch. simpl askedAmong.
  destruct (fetch GoogleShopping query) as [|[rg|]] eqn:Hg; simpl hasResults;
    cbv iota.
  1, 3:
    destruct (fetch Amazon query) as [|[ra|]] eqn:Ha; simpl hasResults;
      cbv iota;
    [ destruct (fetch eBay query) as [|[re|]] eqn:He; simpl hasResults;
        cbv iota
    | | destruct (fetch eBay query) as [|[re|]] eqn:He; simpl hasResults;
          cbv iota ].
  all: simpl fst; simpl snd.
  all: split; [reflexivity|].
  all: split;
    [ split;
      [ intros [message Hmsg];
        try (exfalso; exact (processResults_settles _ _ _ _ _ _ _ Hmsg));
        intros [| |]; (rewrite ?Hg, ?Ha, ?He; reflexivity)
      | intros Hall;
        try (eexists; reflexivity);
        first [ specialize (Hall GoogleShopping); rewrite Hg in Hall;
                discriminate Hall
              | specialize (Hall Amazon); rewrite Ha in Hall;
                discriminate Hall
              | specialize (Hall eBay); rewrite He in Hall;
                discriminate Hall ] ]
    | ].
  all: repeat split; intros; try discriminate; try congruence.
  match goal with H : Body _ = Body _ |- _ => injection H as -> end.
  reflexivity.
Qed.

Lemma performSerpApiSearch_fallback_witness :
  snd (performSerpApiSearch unusedToString onlyLast 0 Db.empty "phone")
  = [GoogleShopping; Amazon; eBay]
  /\ fst (performSerpApiSearch unusedToString onlyLast 0 Db.empty "phone")
     = processResults unusedToString eBay
         [itemExample "Phone" (Some "100") (Some "t.png")] "phone" 0 Db.empty.
Proof.
  destruct (performSerpApiSearch_fallback unusedToString onlyLast 0 Db.empty
              "phone") as (Hasked & _ & _ & _ & Hlast & _).
  split; [exact Hasked|].
  apply Hlast; reflexivity.
Defined.

(** ** Product identity *)

Module Base64Facts.

Import Base64.

Local Open Scope N_scope.

Lemma digits_checked :
  forallb (fun i => N.eqb (sextet (digit i)) i
                    && negb (Ascii.eqb (digit i) pad))
    (map N.of_nat (seq 0 64)) = true.
Proof. vm_compute. reflexivity. Qed.

Lemma digit_facts (i : N) :
  i < 64 -> sextet (digit i) = i /\ digit i <> pad.
Proof.
  intros Hi.
  assert (Hin : In i (map N.of_nat (seq 0 64))).
  { apply in_map_iff. exists (N.to_nat i). split; [apply N2Nat.id|].
    apply in_seq. lia. }
  pose proof (proj1 (forallb_forall _ _) digits_checked i Hin) as H.
  apply andb_true_iff in H as [H1 H2].
  apply N.eqb_eq in H1. split; [exact H1|].
  intros Heq. rewrite Heq, Ascii.eqb_refl in H2. discriminate.
Qed.

Lemma digit_inj (i j : N) : i < 64 -> j < 64 -> digit i = digit j -> i = j.
Proof.
  intros Hi Hj H.
  rewrite <- (proj1 (digit_facts i Hi)), <- (proj1 (digit_facts j Hj)), H.
  reflexivity.
Qed.

(** Names the quotient and the remainder of [a] by [k]. *)
Ltac split_at a k :=
  let q := fresh "q" in
  let r := fresh "r" in
  pose proof (N.div_mod a k ltac:(discriminate));
  pose proof (N.mod_lt a k ltac:(discriminate));
  set (q := a / k) in *; set (r := a mod k) in *; clearbody q r.

Lemma one_byte (a a' : N) :
  a / 4 = a' / 4 -> a mod 4 * 16 = a' mod 4 * 16 -> a = a'.
Proof. intros H1 H2. split_at a 4. split_at a' 4. lia. Qed.

Lemma two_bytes (a b a' b' : N) :
  a / 4 = a' / 4 -> a mod 4 * 16 + b / 16 = a' mod 4 * 16 + b' / 16 ->
  b mod 16 * 4 = b' mod 16 * 4 ->
  b < 256 -> b' < 256 -> a = a' /\ b = b'.
Proof.
  intros H1 H2 H3 Hb Hb'.
  split_at a 4. split_at a' 4. split_at b 16. split_at b' 16.
  split; lia.
Qed.

Lemma three_bytes (a b c a' b' c' : N) :
  a / 4 = a' / 4 -> a mod 4 * 16 + b / 16 = a' mod 4 * 16 + b' / 16 ->
  b mod 16 * 4 + c / 64 = b' mod 16 * 4 + c' / 64 ->
  c mod 64 = c' mod 64 ->
  b < 256 -> b' < 256 -> c < 256 -> c' < 256 ->
  a = a' /\ b = b' /\ c = c'.
Proof.
  intros H1 H2 H3 H4 Hb Hb' Hc Hc'.
  split_at a 4. split_at a' 4. split_at b 16. split_at b' 16.
  split_at c 64. split_at c' 64.
  repeat split; lia.
Qed.

Lemma list_ind3 {A : Type} (P : list A -> Prop) :
  P [] -> (forall a, P [a]) -> (forall a b, P [a; b]) ->
  (forall a b c l, P l -> P (a :: b :: c :: l)) ->
  forall l, P l.
Proof.
  intros H0 H1 H2 H3. fix IH 1.
  intros [|a [|b [|c l]]].
  - exact H0.
  - exact (H1 a).
  - exact (H2 a b).
  - exact (H3 a b c l (IH l)).
Qed.

Lemma bytes_cons (a : N) (l : list N) :
  bytes (a :: l) -> a < 256 /\ bytes l.
Proof. intros H. inversion H; subst. split; assumption. Qed.

Ltac bounds :=
  repeat match goal with
  | H : bytes (_ :: _) |- _ => apply bytes_cons in H as [? H]
  end.

(** Bounds a group of six bits built from bytes. *)
Ltac group_bound :=
  repeat match goal with
  | |- context [?a / ?k] => is_var a; split_at a k
  | |- context [?a mod ?k] => is_var a; split_at a k
  end; lia.

(** Two different groups of six bits never read the same, and none reads as
    the padding. *)
Ltac same_digits :=
  repeat match goal with
  | E : digit _ = digit _ |- _ =>
      apply digit_inj in E; [ | group_bound | group_bound ]
  end.

Ltac no_pad :=
  exfalso;
  match goal with
  | E : digit _ = pad |- _ =>
      revert E; apply digit_facts; group_bound
  | E : pad = digit _ |- _ =>
      symmetry in E; revert E; apply digit_facts; group_bound
  end.

Lemma encode_inj (l1 : list N) :
  forall l2, bytes l1 -> bytes l2 -> encode l1 = encode l2 -> l1 = l2.
Proof.
  induction l1 as [|a|a b|a b c l1 IH] using list_ind3;
    intros [|a' [|b' [|c' l2]]] B1 B2 E; bounds;
    simpl in E; try discriminate E; try reflexivity;
    injection E; intros; try no_pad; same_digits.
  - f_equal. eapply one_byte; eassumption.
  - destruct (two_bytes a b a' b') as [-> ->]; try assumption. reflexivity.
  - destruct (three_bytes a b c a' b' c') as (-> & -> & ->);
      try assumption.
    f_equal. f_equal. f_equal. apply IH; assumption.
Qed.

End Base64Facts.

Lemma list_ascii_of_string_app (s1 s2 : string) :
  list_ascii_of_string (s1 ++ s2) =
  (list_ascii_of_string s1 ++ list_ascii_of_string s2)%list.
Proof.
  induction s1 as [|c s1 IH]; [reflexivity|].
  simpl. rewrite IH. reflexivity.
Qed.

Lemma list_ascii_of_string_inj (s1 s2 : string) :
  list_ascii_of_string s1 = list_ascii_of_string s2 -> s1 = s2.
Proof.
  intros H.
  rewrite <- (string_of_list_ascii_of_string s1),
          <- (string_of_list_ascii_of_string s2), H.
  reflexivity.
Qed.

Lemma append_inv_head (s a b : string) : s ++ a = s ++ b -> a = b.
Proof.
  induction s as [|c s IH]; [auto|].
  simpl. intros H. injection H as H. auto.
Qed.

Lemma append_inv_tail (s a b : string) : a ++ s = b ++ s -> a = b.
Proof.
  intros H. apply list_ascii_of_string_inj.
  apply (f_equal list_ascii_of_string) in H.
  rewrite !list_ascii_of_string_app in H.
  exact (app_inv_tail _ _ _ H).
Qed.

Lemma bytes_of_bytes (s : string) : Base64.bytes (Base64.bytes_of s).
Proof.
  unfold Base64.bytes, Base64.bytes_of.
  apply Forall_map, Forall_forall. intros c _. apply N_ascii_bounded.
Qed.

Lemma bytes_of_inj (s1 s2 : string) :
  Base64.bytes_of s1 = Base64.bytes_of s2 -> s1 = s2.
Proof.
  unfold Base64.bytes_of. intros H.
  apply list_ascii_of_string_inj.
  revert H. generalize (list_ascii_of_string s1) (list_ascii_of_string s2).
  induction l as [|c l IH]; intros [|c' l']; simpl; intros H;
    try discriminate H; [reflexivity|].
  injection H as Hc Hl. f_equal; [|exact (IH _ Hl)].
  rewrite <- (ascii_N_embedding c), <- (ascii_N_embedding c'), Hc.
  reflexivity.
Qed.

Lemma toBase64_inj (s1 s2 : string) :
  Base64.toBase64 s1 = Base64.toBase64 s2 -> s1 = s2.
Proof.
  intros H. apply bytes_of_inj.
  exact (Base64Facts.encode_inj _ _ (bytes_of_bytes s1) (bytes_of_bytes s2) H).
Qed.

(** Against C5 as stated.  Two triples that differ in the title and in the
    source have one identity, the dash-joined text being the same. *)
Lemma productId_collision :
  ("Galaxy-S25", "Shop", "https://shop.example/1")
  <> ("Galaxy", "S25-Shop", "https://shop.example/1")
  /\ productId "Galaxy-S25" "Shop" "https://shop.example/1"
     = productId "Galaxy" "S25-Shop" "https://shop.example/1".
Proof. split; [discriminate|reflexivity]. Qed.

(** C5 (as the code behaves).  The identity is a function of the title, the
    source and the link: equal triples give equal identities.  Two triples
    that differ in one field only, the two other fields being equal, give
    different identities. *)
Theorem productId_one_field_changed (title source link : string) :
  (forall title' source' link',
     title' = title -> source' = source -> link' = link ->
     productId title' source' link' = productId title source link)
  /\ (forall title', title' <> title ->
        productId title' source link <> productId title source link)
  /\ (forall source', source' <> source ->
        productId title source' link <> productId title source link)
  /\ (forall link', link' <> link ->
        productId title source link' <> productId title source link).
Proof.
  unfold productId. repeat split.
  - intros title' source' link' -> -> ->. reflexivity.
  - intros title' Hne H. apply toBase64_inj in H.
    apply Hne. exact (append_inv_tail _ _ _ H).
  - intros source' Hne H. apply toBase64_inj in H.
    apply append_inv_head, append_inv_head in H.
    apply Hne. exact (append_inv_tail _ _ _ H).
  - intros link' Hne H. apply toBase64_inj in H.
    repeat apply append_inv_head in H.
    apply Hne. exact H.
Qed.

Lemma productId_one_field_changed_witness :
  productId "iPhone 15" "Amazon" "https://shop.example/1"
  <> productId "iPhone 15" "eBay" "https://shop.example/1".
Proof.
  apply (productId_one_field_changed "iPhone 15" "eBay"
           "https://shop.example/1").
  discriminate.
Defined.

(** ** Sorting *)

Section SortFacts.

Context {A : Type}.
Variable comparefn : A -> A -> number.

(** The comparator never asks for both orders of two elements. *)
Hypothesis one_way :
  forall x y,
    isPositive (Arr.sortCompare comparefn x y) = true ->
    isPositive (Arr.sortCompare comparefn y x) = false.

Lemma insert_Permutation (x : A) (l : list A) :
  Permutation (Arr.insert comparefn x l) (x :: l).
Proof.
  induction l as [|y l IH]; simpl; [reflexivity|].
  destruct (isPositive (Arr.sortCompare comparefn x y)); [|reflexivity].
  rewrite IH. apply perm_swap.
Qed.

Lemma sort_Permutation (l : list A) : Permutation (Arr.sort comparefn l) l.
Proof.
  induction l as [|x l IH]; simpl; [reflexivity|].
  rewrite insert_Permutation. apply perm_skip, IH.
Qed.

Lemma insert_HdRel (y x : A) (l : list A) :
  Arr.keeps comparefn y x -> HdRel (Arr.keeps comparefn) y l ->
  HdRel (Arr.keeps comparefn) y (Arr.insert comparefn x l).
Proof.
  intros Hyx Hl. destruct l as [|z l]; simpl.
  - constructor. exact Hyx.
  - destruct (isPositive (Arr.sortCompare comparefn x z)); constructor.
    + inversion Hl; assumption.
    + exact Hyx.
Qed.

Lemma insert_Sorted (x : A) (l : list A) :
  Sorted (Arr.keeps comparefn) l ->
  Sorted (Arr.keeps comparefn) (Arr.insert comparefn x l).
Proof.
  induction 1 as [|y l Hl IH Hy]; simpl.
  - repeat constructor.
  - destruct (isPositive (Arr.sortCompare comparefn x y)) eqn:E.
    + constructor; [exact IH|].
      apply insert_HdRel; [|exact Hy]. apply one_way, E.
    + constructor; [constructor; assumption|].
      constructor. exact E.
Qed.

Lemma sort_Sorted (l : list A) :
  Sorted (Arr.keeps comparefn) (Arr.sort comparefn l).
Proof.
  induction l as [|x l IH]; simpl; [constructor|].
  apply insert_Sorted, IH.
Qed.

Lemma sort_of_Sorted (l : list A) :
  Sorted (Arr.keeps comparefn) l -> Arr.sort comparefn l = l.
Proof.
  induction 1 as [|x l Hl IH Hx]; [reflexivity|].
  simpl. rewrite IH.
  destruct Hx as [|y l Hxy]; [reflexivity|].
  simpl. unfold Arr.keeps in Hxy. rewrite Hxy. reflexivity.
Qed.

Lemma sort_idempotent (l : list A) :
  Arr.sort comparefn (Arr.sort comparefn l) = Arr.sort comparefn l.
Proof. apply sort_of_Sorted, sort_Sorted. Qed.




End SortFacts.

(** ** The sign of a difference *)

Lemma isPositive_sortCompare {A : Type} (comparefn : A -> A -> number)
    (x y : A) :
  isPositive (Arr.sortCompare comparefn x y) = isPositive (comparefn x y).
Proof.
  unfold Arr.sortCompare. destruct (comparefn x y); reflexivity.
Qed.

Lemma isPositive_sign (x : number) :
  isPositive x = true ->
  x = S754_infinity false \/ exists m e, x = S754_finite false m e.
Proof.
  destruct x as [s|s| |s m e]; try destruct s; try discriminate; eauto.
Qed.

(** Rounding keeps the sign it is given. *)
Lemma binary_round_aux_sign (s : bool) (m e : Z) (l : location) :
  isPositive (binary_round_aux prec emax s m e l) = true -> s = false.
Proof.
  unfold binary_round_aux.
  destruct (shr_fexp prec emax m e l) as [mrs' e'].
  destruct (shr_fexp prec emax _ e' loc_Exact) as [mrs'' e''].
  destruct (shr_m mrs'') as [|p|p]; [| destruct (e'' <=? emax - prec)%Z |];
    destruct s; auto; discriminate.
Qed.

Lemma binary_normalize_positive (z e : Z) :
  isPositive (binary_normalize prec emax z e false) = true -> (0 < z)%Z.
Proof.
  destruct z as [|p|p]; simpl; [discriminate|lia|].
  unfold binary_round.
  destruct (shl_align p e _) as [mz ez].
  intros H. apply binary_round_aux_sign in H. discriminate.
Qed.

Lemma sub_one_way (x y : number) :
  isPositive (sub x y) = true -> isPositive (sub y x) = false.
Proof.
  destruct x as [sx|sx| |sx mx ex], y as [sy|sy| |sy my ey];
    try (destruct sx); try (destruct sy); try reflexivity;
    try discriminate.
  all: unfold sub, SFsub; rewrite (Z.min_comm ey ex);
    set (ez := Z.min ex ey);
    intros H; apply binary_normalize_positive in H;
    match goal with
    | |- isPositive (binary_normalize _ _ ?z _ _) = false =>
        destruct (isPositive (binary_normalize prec emax z ez false)) eqn:E;
        [apply binary_normalize_positive in E; unfold cond_Zopp in *; lia
        |reflexivity]
    end.
Qed.

(** ** Rounding never reaches zero from an integer multiple of [2^emin] *)

Module RoundingFacts.

Local Open Scope Z_scope.


















End RoundingFacts.

(** ** The ranker on every list *)

Lemma compareProducts_one_way (query : string) (a b : Product) :
  isPositive (Arr.sortCompare (compareProducts query) a b) = true ->
  isPositive (Arr.sortCompare (compareProducts query) b a) = false.
Proof.
  rewrite !isPositive_sortCompare. unfold compareProducts.
  destruct (isRelevant query (title a)), (isRelevant query (title b));
    cbv beta iota delta [andb negb].
  - apply sub_one_way.
  - intros H. vm_compute in H. discriminate H.
  - intros _. vm_compute. reflexivity.
  - apply sub_one_way.
Qed.

(** C7.  The ranker returns a permutation of the list it is given, so that
    no product is dropped or added, and ranking a ranked list again with the
    same query leaves it as it is. *)
Theorem filterAndSortProducts_permutation_idempotent
    (products : list Product) (query : string) :
  Permutation (filterAndSortProducts products query) products
  /\ filterAndSortProducts (filterAndSortProducts products query) query
     = filterAndSortProducts products query.
Proof.
  unfold filterAndSortProducts. split.
  - apply sort_Permutation.
  - apply sort_idempotent, compareProducts_one_way.
Qed.

(** ** The order the ranker sorts by *)










(** * Further properties of the server *)

(** ** Relevance for a blank query *)






(** ** When two products share one identity *)

Lemma first_dash (a : string) :
  forall a' r r',
    hasDash a = false -> hasDash a' = false ->
    a ++ "-" ++ r = a' ++ "-" ++ r' -> a = a' /\ r = r'.
Proof.
  induction a as [|c a IH]; intros [|c' a'] r r' Ha Ha' H; simpl in *.
  - injection H as H. auto.
  - injection H as Hc _. subst c'. discriminate Ha'.
  - injection H as Hc _. subst c. discriminate Ha.
  - injection H as Hc H. subst c'.
    apply orb_false_elim in Ha as [_ Ha].
    apply orb_false_elim in Ha' as [_ Ha'].
    destruct (IH a' r r' Ha Ha' H) as [-> ->]. auto.
Qed.

(** X3.  Two products have the same identity exactly when the texts
    [title-source-link] are the same.  When no title and no source has a
    dash in it, the identity tells the title, the source and the link. *)
Theorem productId_same_text (title source link title' source' link' : string) :
  (productId title source link = productId title' source' link' <->
   title ++ "-" ++ source ++ "-" ++ link
   = title' ++ "-" ++ source' ++ "-" ++ link')
  /\
  (hasDash title = false -> hasDash title' = false ->
   hasDash source = false -> hasDash source' = false ->
   productId title source link = productId title' source' link' ->
   title = title' /\ source = source' /\ link = link').
Proof.
  assert (Hiff :
    productId title source link = productId title' source' link' <->
    title ++ "-" ++ source ++ "-" ++ link
    = title' ++ "-" ++ source' ++ "-" ++ link').
  { unfold productId. split; [apply toBase64_inj|intros ->; reflexivity]. }
  split; [exact Hiff|].
  intros Ht Ht' Hs Hs' H. apply Hiff in H.
  destruct (first_dash _ _ _ _ Ht Ht' H) as [-> H'].
  destruct (first_dash _ _ _ _ Hs Hs' H') as [-> ->].
  auto.
Qed.

Lemma productId_same_text_witness :
  hasDash "Galaxy S25" = false /\ hasDash "Shop" = false
  /\ ("Galaxy S25" = "Galaxy S25" /\ "Shop" = "Shop"
      /\ "https://shop.example/a-1" = "https://shop.example/a-1").
Proof.
  split; [reflexivity|]. split; [reflexivity|].
  apply (proj2 (productId_same_text "Galaxy S25" "Shop"
                  "https://shop.example/a-1" "Galaxy S25" "Shop"
                  "https://shop.example/a-1")); reflexivity.
Defined.

(** ** The price shown *)

Lemma includes_rupee (s : string) : includes (rupee ++ s) rupee = true.
Proof. destruct s; reflexivity. Qed.

Lemma formatPrice_kept (NumberToString : number -> string) (p : string) :
  includes p rupee = true -> formatPrice NumberToString (Some p) = Some p.
Proof.
  intros Hp. unfold formatPrice. rewrite Hp, andb_false_r. reflexivity.
Qed.

Lemma formatPrice_shown (NumberToString : number -> string)
    (price : option string) (p : string) :
  formatPrice NumberToString price = Some p ->
  p = "" \/ includes p rupee = true.
Proof.
  destruct price as [p0|]; [|discriminate].
  unfold formatPrice.
  destruct (nonempty p0) eqn:Hne, (includes p0 rupee) eqn:Hinc;
    cbv beta iota delta [andb negb]; intros H; injection H as <-; auto.
  - right. apply includes_rupee.
  - left. destruct p0; [reflexivity|discriminate].
Qed.

(** X4.  Formatting a price for display leaves a price that carries the
    rupee sign as it is, gives a price with the rupee sign to every other
    price that is not empty, and so changes nothing when applied again. *)
Theorem formatPrice_once (NumberToString : number -> string)
    (price : option string) :
  (forall p, price = Some p -> includes p rupee = true ->
             formatPrice NumberToString price = price)
  /\ (forall p, formatPrice NumberToString price = Some p ->
                p = "" \/ includes p rupee = true)
  /\ formatPrice NumberToString (formatPrice NumberToString price)
     = formatPrice NumberToString price.
Proof.
  split; [intros p -> Hp; exact (formatPrice_kept NumberToString p Hp)|].
  split; [exact (formatPrice_shown NumberToString price)|].
  destruct (formatPrice NumberToString price) as [p|] eqn:E; [|reflexivity].
  destruct (formatPrice_shown NumberToString price p E) as [->|Hp];
    [reflexivity|].
  exact (formatPrice_kept NumberToString p Hp).
Qed.

Lemma formatPrice_once_witness :
  formatPrice unusedToString (Some (rupee ++ "1,299"))
  = Some (rupee ++ "1,299").
Proof.
  exact (proj1 (formatPrice_once unusedToString (Some (rupee ++ "1,299")))
           (rupee ++ "1,299") eq_refl eq_refl).
Defined.

(** ** What a search writes *)

Lemma NoDup_map_filter {A B : Type} (key : A -> B) (keep : A -> bool)
    (l : list A) :
  NoDup (map key l) -> NoDup (map key (filter keep l)).
Proof.
  induction l as [|x l IH]; simpl; intros H; [constructor|].
  inversion H as [|? ? Hx Hl]; subst.
  destruct (keep x); [|exact (IH Hl)].
  simpl. constructor; [|exact (IH Hl)].
  intros Hin. apply Hx. apply in_map_iff in Hin as (y & Hy & Hin).
  apply filter_In in Hin as [Hin _]. apply in_map_iff. eauto.
Qed.

(** Replacing the rows of a key by one row keeps the keys apart. *)
Lemma NoDup_replace {A B : Type} (key : A -> B) (keep : A -> bool)
    (row : A) (l : list A) :
  (forall x, In x l -> keep x = true -> key x <> key row) ->
  NoDup (map key l) -> NoDup (map key (filter keep l ++ [row])).
Proof.
  intros Hkeep H. rewrite map_app. apply NoDup_app.
  - apply NoDup_map_filter, H.
  - repeat constructor. intros [].
  - intros k Hk [<-|[]].
    apply in_map_iff in Hk as (x & Hx & Hin).
    apply filter_In in Hin as [Hin Hkept].
    exact (Hkeep x Hin Hkept Hx).
Qed.

Lemma storeProduct_tables (now : Z) (db : Db.t) (p : Product) :
  Db.products (storeProduct now db p)
  = (filter (fun r => negb (String.eqb (Db.p_id r) (id p))) (Db.products db)
     ++ [productRow now p])%list
  /\ Db.price_history (storeProduct now db p)
     = (Db.price_history db ++ pricePoints now p)%list
  /\ Db.wishlists (storeProduct now db p) = Db.wishlists db
  /\ Db.customers (storeProduct now db p) = Db.customers db
  /\ Db.cart (storeProduct now db p) = Db.cart db.
Proof.
  unfold storeProduct, Db.insert_price_history, pricePoints, productRow.
  destruct (price p); simpl; rewrite ?app_nil_r;
    repeat (split; [reflexivity|]); reflexivity.
Qed.

Lemma processResults_db (NumberToString : number -> string)
    (provider : Provider) (results : list RawItem) (query : string)
    (now : Z) (db : Db.t) :
  snd (processResults NumberToString provider results query now db)
  = fold_left (storeProduct now) (normalize provider results) db.
Proof.
  unfold processResults.
  destruct (addPredictions NumberToString _ _); reflexivity.
Qed.

Lemma stored_tables (now : Z) (ps : list Product) :
  forall db,
    Db.price_history (fold_left (storeProduct now) ps db)
    = (Db.price_history db ++ flat_map (pricePoints now) ps)%list
    /\ Db.wishlists (fold_left (storeProduct now) ps db) = Db.wishlists db
    /\ Db.customers (fold_left (storeProduct now) ps db) = Db.customers db
    /\ Db.cart (fold_left (storeProduct now) ps db) = Db.cart db.
Proof.
  induction ps as [|p ps IH]; intros db; simpl.
  - rewrite app_nil_r. repeat split.
  - destruct (IH (storeProduct now db p)) as (Hh & Hw & Hc & Hk).
    destruct (storeProduct_tables now db p) as (_ & Hh' & Hw' & Hc' & Hk').
    rewrite Hh, Hw, Hc, Hk, Hh', Hw', Hc', Hk', <- app_assoc.
    repeat split.
Qed.


Lemma product_exists_stored (now : Z) (db : Db.t) (p : Product)
    (i : string) :
  Db.product_exists i (storeProduct now db p)
  = String.eqb (id p) i || Db.product_exists i db.
Proof.
  unfold Db.product_exists.
  rewrite (proj1 (storeProduct_tables now db p)), existsb_app. simpl.
  rewrite orb_false_r, orb_comm.
  destruct (String.eqb_spec (id p) i) as [<-|Hne]; [reflexivity|].
  simpl. induction (Db.products db) as [|r l IH]; [reflexivity|].
  simpl. destruct (String.eqb_spec (Db.p_id r) (id p)) as [E|E]; simpl.
  - rewrite IH.
    destruct (String.eqb_spec (Db.p_id r) i); [congruence|reflexivity].
  - rewrite IH. reflexivity.
Qed.

Lemma uniqueProducts_stored (now : Z) (db : Db.t) (p : Product) :
  uniqueProducts db -> uniqueProducts (storeProduct now db p).
Proof.
  unfold uniqueProducts. intros H.
  rewrite (proj1 (storeProduct_tables now db p)).
  apply NoDup_replace; [|exact H].
  intros r _ Hr. apply negb_true_iff, String.eqb_neq in Hr. exact Hr.
Qed.

Lemma stored_products (now : Z) (ps : list Product) (db : Db.t) :
  let db' := fold_left (storeProduct now) ps db in
  (uniqueProducts db -> uniqueProducts db')
  /\ (forall i, Db.product_exists i db' = true <->
                Db.product_exists i db = true \/ In i (map id ps))
  /\ (NoDup (map id ps) ->
      forall p, In p ps -> In (productRow now p) (Db.products db')).
Proof.
  induction ps as [|p ps IH] using rev_ind; intros db'; subst db'.
  - simpl. split; [auto|]. split; [tauto|]. intros _ p [].
  - rewrite fold_left_app. simpl.
    destruct IH as (Huniq & Hex & Hrow).
    split; [intros H; apply uniqueProducts_stored, Huniq, H|].
    split.
    + intros i. rewrite product_exists_stored, orb_true_iff, Hex.
      rewrite map_app, in_app_iff, String.eqb_eq. simpl. tauto.
    + rewrite map_app. intros Hnd p' Hin.
      rewrite (proj1 (storeProduct_tables now _ p)).
      apply in_app_iff. apply in_app_iff in Hin as [Hin|[<-|[]]].
      * left. apply filter_In. split.
        -- apply Hrow; [exact (NoDup_app_remove_r _ _ Hnd)|exact Hin].
        -- apply negb_true_iff, String.eqb_neq. simpl. intros E.
           apply NoDup_remove_2 in Hnd. apply Hnd.
           rewrite app_nil_r, <- E. apply in_map, Hin.
      * right. left. reflexivity.
Qed.

(** X6.  After a search has handled the results of a provider, every
    product it found has a row in the products table and no product that was
    known before has lost its row; ids stay unique when they were.  When the
    products found have different ids, the row of each one holds its title,
    link, source, thumbnail and the price as the provider gave it, not the
    formatted one. *)
Theorem processResults_stores_products
    (NumberToString : number -> string) (provider : Provider)
    (results : list RawItem) (query : string) (now : Z) (db : Db.t) :
  let found := normalize provider results in
  let db' :=
    snd (processResults NumberToString provider results query now db) in
  (uniqueProducts db -> uniqueProducts db')
  /\ (forall i, Db.product_exists i db' = true <->
                Db.product_exists i db = true \/ In i (map id found))
  /\ (NoDup (map id found) ->
      forall p, In p found -> In (productRow now p) (Db.products db')).
Proof.
  intros found db'. subst found db'. rewrite processResults_db.
  apply stored_products.
Qed.

Lemma processResults_stores_products_witness :
  In (productRow 7
        (googleProduct (itemExample "Phone" (Some "100") (Some "t.png"))))
     (Db.products
        (snd (processResults unusedToString GoogleShopping
                [itemExample "Phone" (Some "100") (Some "t.png")]
                "phone" 7 Db.empty))).
Proof.
  apply (processResults_stores_products unusedToString GoogleShopping
           [itemExample "Phone" (Some "100") (Some "t.png")]
           "phone" 7 Db.empty).
  - repeat constructor. intros [].
  - left. reflexivity.
Defined.

(** ** What a search returns *)

(** What the loop "Add predictions" makes of a product. *)
Lemma addPredictions_each (NumberToString : number -> string) (db : Db.t)
    (ps : list Product) :
  forall shown,
    addPredictions NumberToString db ps = Some shown ->
    Forall2 (fun p p' =>
               id p' = id p /\ title p' = title p
               /\ price p' = formatPrice NumberToString (price p)
               /\ prediction p'
                  = getPricePrediction db (id p) (price p)
               /\ prediction p' <> None) ps shown.
Proof.
  induction ps as [|p ps IH]; cbn [addPredictions]; intros shown H.
  - injection H as <-. constructor.
  - destruct (getPricePrediction db (id p) (price p)) as [trend|] eqn:E;
      [|discriminate].
    destruct (addPredictions NumberToString db ps) as [rest|];
      [|discriminate].
    injection H as <-. constructor; [|apply IH; reflexivity].
    cbn [id title price prediction]. rewrite E.
    repeat split. discriminate.
Qed.

Lemma Forall2_map_eq {A B C : Type} (f : A -> C) (g : B -> C)
    (R : A -> B -> Prop) (l : list A) (l' : list B) :
  (forall x y, R x y -> g y = f x) -> Forall2 R l l' -> map g l' = map f l.
Proof.
  intros HR H. induction H as [|x y l l' Hxy _ IH]; [reflexivity|].
  simpl. rewrite IH, (HR x y Hxy). reflexivity.
Qed.

Lemma Forall2_Forall_r {A B : Type} (R : A -> B -> Prop) (P : B -> Prop)
    (l : list A) (l' : list B) :
  (forall x y, R x y -> P y) -> Forall2 R l l' -> Forall P l'.
Proof.
  intros HR H. induction H as [|x y l l' Hxy _ IH]; constructor; eauto.
Qed.

(** X7.  When a search ends with a list, the list holds the products of the
    provider, none dropped and none added: its ids and its titles are a
    permutation of theirs.  Every product in it carries a prediction, and
    its price, unless undefined or empty, carries the rupee sign. *)
Theorem processResults_found
    (NumberToString : number -> string) (provider : Provider)
    (results : list RawItem) (query : string) (now : Z) (db : Db.t)
    (found : list Product) :
  fst (processResults NumberToString provider results query now db)
  = Found found ->
  Permutation (map id found) (map id (normalize provider results))
  /\ Permutation (map title found) (map title (normalize provider results))
  /\ Forall (fun p =>
               prediction p <> None
               /\ forall s, price p = Some s ->
                            s = "" \/ includes s rupee = true) found.
Proof.
  unfold processResults.
  destruct (addPredictions NumberToString _ (normalize provider results))
    as [shown|] eqn:E; [|discriminate].
  simpl. intros H. injection H as <-.
  pose proof (addPredictions_each _ _ _ _ E) as Hshown.
  assert (Hperm : Permutation (filterAndSortProducts shown query) shown)
    by apply sort_Permutation.
  split; [|split].
  - rewrite (Permutation_map id Hperm).
    erewrite Forall2_map_eq; [reflexivity| |exact Hshown].
    intros p p' H. apply H.
  - rewrite (Permutation_map title Hperm).
    erewrite Forall2_map_eq; [reflexivity| |exact Hshown].
    intros p p' H. apply H.
  - eapply Permutation_Forall; [symmetry; exact Hperm|].
    eapply Forall2_Forall_r; [|exact Hshown].
    intros p p' (_ & _ & Hprice & _ & Hpred). split; [exact Hpred|].
    intros s Hs. rewrite Hprice in Hs.
    exact (formatPrice_shown NumberToString (price p) s Hs).
Qed.

Lemma processResults_found_witness :
  exists found,
    fst (processResults unusedToString GoogleShopping
           [itemExample "Phone" (Some "100") (Some "t.png")] "phone" 7
           Db.empty) = Found found
    /\ Permutation (map title found) ["Phone"].
Proof.
  set (found :=
         match fst (processResults unusedToString GoogleShopping
                      [itemExample "Phone" (Some "100") (Some "t.png")]
                      "phone" 7 Db.empty) with
         | Found l => l
         | _ => []
         end).
  exists found.
  assert (H : fst (processResults unusedToString GoogleShopping
                     [itemExample "Phone" (Some "100") (Some "t.png")]
                     "phone" 7 Db.empty) = Found found)
    by (vm_compute; reflexivity).
  split; [exact H|].
  exact (proj1 (proj2 (processResults_found unusedToString GoogleShopping
                         [itemExample "Phone" (Some "100") (Some "t.png")]
                         "phone" 7 Db.empty found H))).
Defined.



Lemma getPricePrediction_settles (db : Db.t) (i : string)
    (cur : option string) :
  getPricePrediction db i cur = None <->
  cur = None /\ (3 <= List.length (parsedHistory db i))%nat.
Proof.
  unfold getPricePrediction, onPriceHistory, parsedHistory.
  set (rows := Db.select_recent_prices db i).
  set (prices :=
         filter (fun p => negb (isNaN p))
           (map (fun row => parseFloat (keep_numeric row)) rows)).
  assert (Hle : (List.length prices <= List.length rows)%nat).
  { unfold prices. etransitivity; [apply filter_length_le|].
    rewrite length_map. apply Nat.le_refl. }
  destruct (Nat.ltb_spec (List.length rows) 3) as [Hr|Hr].
  { split; [discriminate|intros [_ H]; lia]. }
  destruct (Nat.ltb_spec (List.length prices) 3) as [Hp|Hp].
  { split; [discriminate|intros [_ H]; lia]. }
  destruct cur as [cur|]; [|tauto].
  split; [|intros [H _]; discriminate].
  destruct (le _ _); [discriminate|].
  destruct (ge _ _); [discriminate|].
  destruct (lt _ _); [discriminate|].
  destruct (gt _ _); discriminate.
Qed.

Lemma addPredictions_settles (NumberToString : number -> string)
    (db : Db.t) (ps : list Product) :
  addPredictions NumberToString db ps = None <->
  exists p, In p ps /\ getPricePrediction db (id p) (price p) = None.
Proof.
  induction ps as [|p ps IH]; cbn [addPredictions].
  - split; [discriminate|intros (p & [] & _)].
  - destruct (getPricePrediction db (id p) (price p)) as [trend|] eqn:E.
    + destruct (addPredictions NumberToString db ps) as [rest|].
      * split; [discriminate|].
        intros (p' & [<-|Hin] & H); [congruence|].
        assert (Hnone : Some rest = None) by (apply (proj2 IH); eauto).
        discriminate Hnone.
      * split; [|reflexivity]. intros _.
        destruct (proj1 IH eq_refl) as (p' & Hin & H).
        exists p'. split; [right; exact Hin|exact H].
    + split; [|reflexivity]. intros _. exists p. split; [left|]; auto.
Qed.

Lemma processResults_unsettled_after
    (NumberToString : number -> string) (provider : Provider)
    (results : list RawItem) (query : string) (now : Z) (db : Db.t) :
  let outcome := processResults NumberToString provider results query now db in
  fst outcome = Unsettled <->
  exists p, In p (normalize provider results)
            /\ price p = None
            /\ (3 <= List.length (parsedHistory (snd outcome) (id p)))%nat.
Proof.
  intros outcome. subst outcome. unfold processResults.
  set (db' := fold_left (storeProduct now) (normalize provider results) db).
  destruct (addPredictions NumberToString db' (normalize provider results))
    as [shown|] eqn:E; cbn [fst snd].
  - split; [discriminate|].
    intros (p & Hin & Hprice & Hlen). exfalso.
    assert (H : addPredictions NumberToString db'
                  (normalize provider results) = None).
    { apply addPredictions_settles. exists p. split; [exact Hin|].
      apply getPricePrediction_settles. auto. }
    congruence.
  - split; [intros _|reflexivity].
    destruct (proj1 (addPredictions_settles _ _ _) E) as (p & Hin & H).
    apply getPricePrediction_settles in H. exists p. tauto.
Qed.

Lemma pricePoints_other (now : Z) (p : Product) (i : string) :
  id p <> i ->
  filter (fun h => String.eqb (Db.h_product_id h) i) (pricePoints now p) = [].
Proof.
  intros Hne. unfold pricePoints. destruct (price p); [|reflexivity].
  simpl. apply String.eqb_neq in Hne. rewrite Hne. reflexivity.
Qed.

Lemma pricePoints_absent (now : Z) (ps : list Product) (i : string) :
  ~ In i (map id ps) ->
  filter (fun h => String.eqb (Db.h_product_id h) i)
    (flat_map (pricePoints now) ps) = [].
Proof.
  induction ps as [|p ps IH]; [reflexivity|].
  simpl. intros Hnot. rewrite filter_app, IH by tauto.
  rewrite pricePoints_other by tauto. reflexivity.
Qed.

(** A product without price, alone with its id, gets no price point. *)
Lemma pricePoints_priceless (now : Z) (ps : list Product) (p : Product) :
  NoDup (map id ps) -> In p ps -> price p = None ->
  filter (fun h => String.eqb (Db.h_product_id h) (id p))
    (flat_map (pricePoints now) ps) = [].
Proof.
  induction ps as [|q ps IH]; [intros _ []|].
  cbn [map flat_map]. intros Hnd Hin Hprice.
  inversion Hnd as [|? ? Hq Hps]; subst.
  rewrite filter_app. destruct Hin as [->|Hin].
  - rewrite (pricePoints_absent now ps (id p) Hq).
    unfold pricePoints. rewrite Hprice. reflexivity.
  - rewrite (IH Hps Hin Hprice), app_nil_r.
    apply pricePoints_other. intros Heq. apply Hq. rewrite Heq.
    apply in_map, Hin.
Qed.

(** X8.  A search that handles the results of a provider, products with
    different ids, comes to an answer unless one of the products has no
    price while at least three prices that parse are among the five latest
    price points the database holds for its id: then, and only then, the
    prediction for that product is never settled and neither is the
    search. *)
Theorem processResults_unsettled
    (NumberToString : number -> string) (provider : Provider)
    (results : list RawItem) (query : string) (now : Z) (db : Db.t) :
  NoDup (map id (normalize provider results)) ->
  (fst (processResults NumberToString provider results query now db)
   = Unsettled
   <->
   exists p, In p (normalize provider results)
             /\ price p = None
             /\ (3 <= List.length (parsedHistory db (id p)))%nat).
Proof.
  intros Hnd.
  assert (Hsame : forall p,
            In p (normalize provider results) -> price p = None ->
            parsedHistory
              (snd (processResults NumberToString provider results query
                      now db)) (id p)
            = parsedHistory db (id p)).
  { intros p Hin Hprice. rewrite processResults_db.
    destruct (stored_tables now (normalize provider results) db)
      as (Hh & _).
    unfold parsedHistory, Db.select_recent_prices.
    rewrite Hh, filter_app,
      (pricePoints_priceless now _ p Hnd Hin Hprice), app_nil_r.
    reflexivity. }
  rewrite (processResults_unsettled_after NumberToString provider results
             query now db).
  split; intros (p & Hin & Hprice & Hlen); exists p;
    (split; [exact Hin|split; [exact Hprice|]]).
  - rewrite <- (Hsame p Hin Hprice). exact Hlen.
  - rewrite (Hsame p Hin Hprice). exact Hlen.
Qed.

Lemma processResults_unsettled_witness :
  fst (processResults unusedToString GoogleShopping
         [itemExample "Phone" None None] "phone" 7 pricelessExample)
  = Unsettled.
Proof.
  apply (processResults_unsettled unusedToString GoogleShopping
           [itemExample "Phone" None None] "phone" 7 pricelessExample).
  - cbn [normalize map]. constructor; [intros []|constructor].
  - exists (googleProduct (itemExample "Phone" None None)).
    split; [left; reflexivity|]. split; [reflexivity|].
    vm_compute. lia.
Defined.





(** ** The search routes *)





Lemma lower_char_twice (c : ascii) : lower_char (lower_char c) = lower_char c.
Proof. destruct c as [[] [] [] [] [] [] [] []]; reflexivity. Qed.

Lemma toLowerCase_twice (s : string) :
  toLowerCase (toLowerCase s) = toLowerCase s.
Proof.
  induction s as [|c s IH]; [reflexivity|].
  simpl. rewrite lower_char_twice, IH. reflexivity.
Qed.

Lemma extractSearchQuery_nonempty (originalname : string) :
  nonempty (extractSearchQuery originalname) = true.
Proof.
  unfold extractSearchQuery.
  repeat match goal with
  | |- context [if ?b then _ else _] => destruct b
  end; reflexivity.
Qed.

(** X11.  The query read off the name of an uploaded file is one of six
    fixed queries and never empty, and upper and lower case in the name make
    no difference.  So the route [POST /search-by-image] answers 400 only
    when no file came with the request: the answer "Could not identify a
    product from the image" is never sent. *)
Theorem searchByImageRoute_identifies
    (NumberToString : number -> string) (file : option string)
    (fetch : Provider -> string -> Response) (now : Z) (db : Db.t) :
  (forall originalname,
     In (extractSearchQuery originalname)
        ["Samsung Galaxy S25"; "iPhone 15"; "Laptop"; "running shoes";
         "smartwatch"; "electronics product"]
     /\ extractSearchQuery (toLowerCase originalname)
        = extractSearchQuery originalname)
  /\ (forall message,
        fst (searchByImageRoute NumberToString file fetch now db)
        = Failure 400 message ->
        file = None /\ message = "No image file uploaded.").
Proof.
  split.
  - intros originalname. split.
    + unfold extractSearchQuery.
      repeat match goal with
      | |- context [if ?b then _ else _] => destruct b
      end; simpl; tauto.
    + unfold extractSearchQuery. rewrite toLowerCase_twice. reflexivity.
  - intros message. unfold searchByImageRoute.
    destruct file as [originalname|].
    + rewrite extractSearchQuery_nonempty. cbn [negb].
      unfold answerSearch.
      destruct (performSerpApiSearch NumberToString fetch now db
                  (extractSearchQuery originalname))
        as [[[found|m|] db'] asked]; cbn; try discriminate.
      destruct found; cbn; discriminate.
    + cbn. intros H. injection H as <-. auto.
Qed.

Lemma searchByImageRoute_identifies_witness :
  fst (searchByImageRoute unusedToString None emptyFirst 0 Db.empty)
  = Failure 400 "No image file uploaded."
  /\ (None : option string) = None.
Proof.
  split; [reflexivity|].
  apply (proj2 (searchByImageRoute_identifies unusedToString None emptyFirst
                  0 Db.empty) "No image file uploaded.").
  reflexivity.
Defined.

(** ** The wish list, again *)

Lemma filter_none {A : Type} (f : A -> bool) (l : list A) :
  filter f l = [] -> filter (fun x => negb (f x)) l = l.
Proof.
  induction l as [|x l IH]; [reflexivity|].
  simpl. destruct (f x); [discriminate|]. simpl. intros H.
  rewrite (IH H). reflexivity.
Qed.

Lemma filter_negb_same {A : Type} (f : A -> bool) (l : list A) :
  filter f (filter (fun x => negb (f x)) l) = [].
Proof.
  induction l as [|x l IH]; [reflexivity|].
  simpl. destruct (f x) eqn:E; simpl; [exact IH|].
  rewrite E. exact IH.
Qed.

Lemma filter_negb_other {A : Type} (f g : A -> bool) (l : list A) :
  (forall x, g x = true -> f x = false) ->
  filter g (filter (fun x => negb (f x)) l) = filter g l.
Proof.
  intros H. induction l as [|x l IH]; [reflexivity|].
  simpl. destruct (f x) eqn:E; simpl.
  - destruct (g x) eqn:G; [|exact IH].
    rewrite (H x G) in E. discriminate.
  - rewrite IH. reflexivity.
Qed.

Lemma wishlist_has_other (u p u' p' : string) (w : Db.WishlistRow) :
  (u', p') <> (u, p) ->
  Db.wishlist_has u' p' w = true -> Db.wishlist_has u p w = false.
Proof.
  unfold Db.wishlist_has. intros Hne H.
  apply andb_true_iff in H as [Hu Hp].
  apply String.eqb_eq in Hu, Hp.
  destruct (String.eqb_spec (Db.w_user_id w) u),
           (String.eqb_spec (Db.w_product_id w) p); try reflexivity.
  exfalso. apply Hne. congruence.
Qed.

Lemma wishlistRemove_truthy (db : Db.t) (userId productId : string) :
  userId <> "" -> productId <> "" ->
  wishlistRemove (Some userId) (Some productId) db
  = (ok (if (0 <? List.length (wishlistEntries db userId productId))%nat
         then "Removed from wishlist." else "Not found in wishlist."),
     fst (Db.delete_wishlist userId productId db)).
Proof.
  intros Hu Hp. unfold wishlistRemove.
  rewrite (truthy_Some _ Hu), (truthy_Some _ Hp). reflexivity.
Qed.

(** X12.  For a user and a product that pass the check of the handler,
    [DELETE /wishlist/remove] leaves no entry for the pair and keeps the
    entries of every other pair.  It answers "Removed from wishlist." when
    there was an entry and "Not found in wishlist." when there was none, in
    which case the database is unchanged. *)
Theorem wishlistRemove_removes
    (db : Db.t) (userId productId : string) :
  userId <> "" -> productId <> "" ->
  let reply := wishlistRemove (Some userId) (Some productId) db in
  wishlistEntries (snd reply) userId productId = []
  /\ (forall u p, (u, p) <> (userId, productId) ->
        wishlistEntries (snd reply) u p = wishlistEntries db u p)
  /\ (wishlistEntries db userId productId <> [] ->
      fst reply = ok "Removed from wishlist.")
  /\ (wishlistEntries db userId productId = [] ->
      reply = (ok "Not found in wishlist.", db)).
Proof.
  intros Hu Hp reply. subst reply.
  rewrite (wishlistRemove_truthy db userId productId Hu Hp).
  cbn [fst snd]. unfold wishlistEntries, Db.delete_wishlist. cbn [fst].
  cbn [Db.wishlists].
  split; [apply filter_negb_same|].
  split; [intros u p Hne; apply filter_negb_other;
          intros w; apply wishlist_has_other; exact Hne|].
  split.
  - intros Hsome.
    destruct (filter (Db.wishlist_has userId productId) (Db.wishlists db));
      [congruence|reflexivity].
  - intros Hnone. rewrite Hnone, (filter_none _ _ Hnone). cbn.
    destruct db; reflexivity.
Qed.

Lemma wishlistRemove_removes_witness :
  wishlistEntries
    (snd (wishlistRemove (Some "7") (Some "cDE=")
            (snd (wishlistAdd (Some "7") (Some "cDE=") 1000 Db.empty))))
    "7" "cDE=" = [].
Proof.
  apply (wishlistRemove_removes
           (snd (wishlistAdd (Some "7") (Some "cDE=") 1000 Db.empty))
           "7" "cDE="); discriminate.
Defined.

(** X13.  Adding a pair that is not in the wish list and then removing it
    gives back the database as it was: the two answers are "Added to
    wishlist." and "Removed from wishlist.". *)
Theorem wishlistAdd_then_remove
    (db : Db.t) (userId productId : string) (now : Z) :
  userId <> "" -> productId <> "" ->
  wishlistEntries db userId productId = [] ->
  let added := wishlistAdd (Some userId) (Some productId) now db in
  let removed := wishlistRemove (Some userId) (Some productId) (snd added) in
  fst added = ok "Added to wishlist."
  /\ removed = (ok "Removed from wishlist.", db).
Proof.
  intros Hu Hp Habsent added removed.
  destruct (wishlistAdd_absent db userId productId now Hu Hp Habsent)
    as [Hreply Hentries].
  fold added in Hreply, Hentries.
  split; [exact Hreply|].
  subst removed. rewrite (wishlistRemove_truthy _ userId productId Hu Hp).
  rewrite Hentries. cbn.
  f_equal. subst added. unfold wishlistAdd.
  rewrite (truthy_Some _ Hu), (truthy_Some _ Hp). cbn.
  unfold Db.insert_or_ignore_wishlist.
  unfold wishlistEntries in Habsent.
  rewrite (existsb_filter_nil _ _ Habsent). cbn.
  unfold Db.delete_wishlist. cbn.
  rewrite filter_app, (filter_none _ _ Habsent). cbn.
  rewrite wishlist_has_refl. cbn. rewrite app_nil_r.
  destruct db; reflexivity.
Qed.

Lemma wishlistAdd_then_remove_witness :
  wishlistRemove (Some "7") (Some "cDE=")
    (snd (wishlistAdd (Some "7") (Some "cDE=") 1000 Db.empty))
  = (ok "Removed from wishlist.", Db.empty).
Proof.
  apply (wishlistAdd_then_remove Db.empty "7" "cDE=" 1000).
  - discriminate.
  - discriminate.
  - reflexivity.
Defined.

Lemma wishlist_key_absent (u p : string) (l : list Db.WishlistRow) :
  existsb (Db.wishlist_has u p) l = false ->
  ~ In (u, p) (map (fun w => (Db.w_user_id w, Db.w_product_id w)) l).
Proof.
  intros H Hin. apply in_map_iff in Hin as (w & Hw & Hin).
  injection Hw as Hu Hp.
  assert (Hex : existsb (Db.wishlist_has u p) l = true).
  { apply existsb_exists. exists w. split; [exact Hin|].
    unfold Db.wishlist_has. rewrite Hu, Hp, !String.eqb_refl. reflexivity. }
  congruence.
Qed.

(** X14.  The wish list never holds two entries for one user and one
    product: if that is so before [POST /wishlist/add] or [DELETE
    /wishlist/remove], whatever the request, it is so afterwards. *)
Theorem wishlist_stays_unique
    (db : Db.t) (userId productId : option string) (now : Z) :
  uniqueWishlist db ->
  uniqueWishlist (snd (wishlistAdd userId productId now db))
  /\ uniqueWishlist (snd (wishlistRemove userId productId db)).
Proof.
  intros H. split.
  - unfold wishlistAdd.
    destruct (negb (truthy userId) || negb (truthy productId));
      [exact H|].
    unfold Db.insert_or_ignore_wishlist.
    destruct (existsb (Db.wishlist_has (or_empty userId) (or_empty productId))
                (Db.wishlists db)) eqn:E; [exact H|].
    unfold uniqueWishlist in *. cbn. rewrite map_app.
    apply NoDup_app; [exact H|repeat constructor; intros []|].
    intros k Hk [<-|[]]. exact (wishlist_key_absent _ _ _ E Hk).
  - unfold wishlistRemove.
    destruct (negb (truthy userId) || negb (truthy productId));
      [exact H|].
    unfold uniqueWishlist in *. cbn. apply NoDup_map_filter, H.
Qed.

Lemma wishlist_stays_unique_witness :
  uniqueWishlist
    (snd (wishlistAdd (Some "7") (Some "cDE=") 2000
            (snd (wishlistAdd (Some "7") (Some "cDE=") 1000 Db.empty)))).
Proof.
  apply (wishlist_stays_unique _ (Some "7") (Some "cDE=") 2000).
  apply (wishlist_stays_unique Db.empty (Some "7") (Some "cDE=") 1000).
  constructor.
Defined.

Lemma addWishlistPredictions_rows (db : Db.t)
    (rows : list (Db.ProductRow * Z)) :
  forall listed,
    addWishlistPredictions db rows = Some listed ->
    map fst listed = rows
    /\ Forall (fun r =>
                 getPricePrediction db (Db.p_id (fst (fst r)))
                   (Db.p_last_price (fst (fst r))) = Some (snd r)) listed.
Proof.
  induction rows as [|[product added_at] rows IH];
    cbn [addWishlistPredictions]; intros listed H.
  - injection H as <-. split; [reflexivity|constructor].
  - destruct (getPricePrediction db (Db.p_id product)
                (Db.p_last_price product)) as [trend|] eqn:E;
      [|discriminate].
    destruct (addWishlistPredictions db rows) as [rest|]; [|discriminate].
    injection H as <-. destruct (IH rest eq_refl) as [Hrows Hall].
    split; [cbn; rewrite Hrows; reflexivity|].
    constructor; [exact E|exact Hall].
Qed.

(** X15.  When [GET /wishlist] answers with a list for a user, a product
    row with the time it was added is in the list exactly when the user has
    a wish-list entry of that time for the id of the row and the row is in
    the products table; each product comes with the prediction for its last
    price.  An entry whose product was never stored is not listed. *)
Theorem wishlistGet_lists
    (db : Db.t) (userId : string)
    (listed : list (Db.ProductRow * Z * Trend)) :
  wishlistGet (Some userId) db = Json listed ->
  (forall product added_at,
     In (product, added_at) (map fst listed) <->
     In product (Db.products db)
     /\ In {| Db.w_user_id := userId; Db.w_product_id := Db.p_id product;
              Db.w_added_at := added_at |} (Db.wishlists db))
  /\ Forall (fun r =>
               getPricePrediction db (Db.p_id (fst (fst r)))
                 (Db.p_last_price (fst (fst r))) = Some (snd r)) listed.
Proof.
  unfold wishlistGet.
  destruct (truthy (Some userId)); cbn [negb]; [|discriminate].
  destruct (addWishlistPredictions db (Db.select_wishlist (or_empty (Some userId)) db))
    as [rows|] eqn:E; [|discriminate].
  intros H. injection H as <-.
  destruct (addWishlistPredictions_rows _ _ _ E) as [Hrows Hall].
  split; [|exact Hall].
  intros product added_at. rewrite Hrows. cbn [or_empty].
  unfold Db.select_wishlist. rewrite in_flat_map. split.
  - intros (w & Hw & Hin).
    destruct (String.eqb_spec (Db.w_user_id w) userId) as [Hu|];
      [|destruct Hin].
    apply in_flat_map in Hin as (p & Hp & Hin).
    destruct (String.eqb_spec (Db.w_product_id w) (Db.p_id p)) as [Hid|];
      [|destruct Hin].
    destruct Hin as [Hin|[]]. injection Hin as <- <-.
    split; [exact Hp|].
    destruct w as [wu wp wa]. cbn in *. subst. exact Hw.
  - intros [Hp Hw]. eexists. split; [exact Hw|]. cbn.
    rewrite String.eqb_refl. apply in_flat_map. exists product.
    split; [exact Hp|]. rewrite String.eqb_refl. left. reflexivity.
Qed.

Lemma wishlistGet_lists_witness :
  let db := snd (wishlistAdd (Some "7") (Some "cDE=") 1000 cartExample) in
  let listed :=
    match wishlistGet (Some "7") db with Json l => l | _ => [] end in
  List.length listed = 1%nat
  /\ Forall (fun r =>
               getPricePrediction db (Db.p_id (fst (fst r)))
                 (Db.p_last_price (fst (fst r))) = Some (snd r)) listed.
Proof.
  intros db listed.
  assert (H : wishlistGet (Some "7") db = Json listed)
    by (vm_compute; reflexivity).
  split; [vm_compute; reflexivity|].
  exact (proj2 (wishlistGet_lists db "7" listed H)).
Defined.

(** ** The cart *)

Lemma cart_has_row (c : Db.CartRow) :
  Db.cart_has (Db.c_user_id c) (Db.c_product_id c) c = true.
Proof.
  unfold Db.cart_has. rewrite Z.eqb_refl, String.eqb_refl. reflexivity.
Qed.

Lemma cart_has_key (u : Z) (p : string) (c : Db.CartRow) :
  Db.cart_has u p c = true <-> (Db.c_user_id c, Db.c_product_id c) = (u, p).
Proof.
  unfold Db.cart_has. rewrite andb_true_iff, Z.eqb_eq, String.eqb_eq.
  split; [intros [-> ->]; reflexivity|intros H; injection H; auto].
Qed.

Lemma cart_has_other (u u' : Z) (p p' : string) (c : Db.CartRow) :
  (u', p') <> (u, p) ->
  Db.cart_has u' p' c = true -> Db.cart_has u p c = false.
Proof.
  intros Hne H. apply cart_has_key in H.
  destruct (Db.cart_has u p c) eqn:E; [|reflexivity].
  apply cart_has_key in E. congruence.
Qed.

Lemma truthyId_Some (u : Z) : u <> 0%Z -> truthyId (Some u) = true.
Proof.
  intros H. unfold truthyId. apply negb_true_iff, Z.eqb_neq, H.
Qed.

(** X16.  [POST /cart/add] updates the cart exactly when both ids are given,
    the product is in the products table and the user is a customer.  In
    every other case the database is unchanged; a missing product is
    reported, with 404, before the user is looked at. *)
Theorem cartAdd_answers
    (db : Db.t) (userId : option Z) (productId reminderPrice : option string)
    (now : Z) :
  let reply := cartAdd userId productId reminderPrice now db in
  (fst reply = ok "Cart updated successfully." <->
   truthyId userId = true /\ truthy productId = true
   /\ Db.product_exists (or_empty productId) db = true
   /\ Db.customer_exists (id_or_zero userId) db = true)
  /\ (fst reply <> ok "Cart updated successfully." -> snd reply = db)
  /\ (truthyId userId = true -> truthy productId = true ->
      Db.product_exists (or_empty productId) db = false ->
      fst reply = error 404 "Product not found. Please search for it first.").
Proof.
  intros reply. subst reply. unfold cartAdd.
  destruct (truthyId userId), (truthy productId),
           (Db.product_exists (or_empty productId) db),
           (Db.customer_exists (id_or_zero userId) db);
    cbn; repeat split; intros; try tauto; try discriminate; try congruence;
    repeat match goal with
    | H : _ /\ _ |- _ => destruct H
    end; try discriminate.
Qed.

Lemma cartAdd_answers_witness :
  fst (cartAdd (Some 1%Z) (Some "cDE=") (Some "40000") 30 cartExample)
  = ok "Cart updated successfully."
  /\ fst (cartAdd (Some 2%Z) (Some "unknown") None 30 cartExample)
     = error 404 "Product not found. Please search for it first.".
Proof.
  split.
  - apply (cartAdd_answers cartExample (Some 1%Z) (Some "cDE=")
             (Some "40000") 30).
    repeat split.
  - apply (cartAdd_answers cartExample (Some 2%Z) (Some "unknown") None 30);
      reflexivity.
Defined.

Lemma cartAdd_succeeds (db : Db.t) (u : Z) (p : string)
    (reminderPrice : option string) (now : Z) :
  u <> 0%Z -> p <> "" ->
  Db.product_exists p db = true -> Db.customer_exists u db = true ->
  cartAdd (Some u) (Some p) reminderPrice now db
  = (ok "Cart updated successfully.",
     Db.insert_or_replace_cart
       {| Db.c_user_id := u; Db.c_product_id := p;
          Db.c_reminder_price := reminderPrice; Db.c_added_at := now |} db).
Proof.
  intros Hu Hp Hprod Hcust. unfold cartAdd.
  rewrite (truthyId_Some u Hu), (truthy_Some p Hp). cbn.
  rewrite Hprod, Hcust. reflexivity.
Qed.

(** X17.  When [POST /cart/add] succeeds, the cart holds one row for the
    user and the product, with the reminder price and the time of this
    request, whatever it held for them before; the rows of every other pair
    and the other tables are as they were. *)
Theorem cartAdd_upserts
    (db : Db.t) (u : Z) (p : string) (reminderPrice : option string)
    (now : Z) :
  u <> 0%Z -> p <> "" ->
  Db.product_exists p db = true -> Db.customer_exists u db = true ->
  let db' := snd (cartAdd (Some u) (Some p) reminderPrice now db) in
  cartEntries db' u p
  = [{| Db.c_user_id := u; Db.c_product_id := p;
        Db.c_reminder_price := reminderPrice; Db.c_added_at := now |}]
  /\ (forall u' p', (u', p') <> (u, p) ->
        cartEntries db' u' p' = cartEntries db u' p')
  /\ Db.products db' = Db.products db
  /\ Db.customers db' = Db.customers db
  /\ Db.wishlists db' = Db.wishlists db
  /\ Db.price_history db' = Db.price_history db.
Proof.
  intros Hu Hp Hprod Hcust db'. subst db'.
  rewrite (cartAdd_succeeds db u p reminderPrice now Hu Hp Hprod Hcust).
  cbn [snd]. unfold cartEntries.
  set (row := {| Db.c_user_id := u; Db.c_product_id := p;
                 Db.c_reminder_price := reminderPrice;
                 Db.c_added_at := now |}).
  change (Db.cart (Db.insert_or_replace_cart row db))
    with (filter (fun r => negb (Db.cart_has u p r)) (Db.cart db)
          ++ [row])%list.
  split.
  - rewrite filter_app, filter_negb_same. cbn [filter app].
    change (Db.cart_has u p row)
      with (Db.cart_has (Db.c_user_id row) (Db.c_product_id row) row).
    rewrite (cart_has_row row). reflexivity.
  - split; [|repeat split].
    intros u' p' Hne. rewrite filter_app. cbn [filter].
    rewrite filter_negb_other
      by (intros c; apply cart_has_other; exact Hne).
    destruct (Db.cart_has u' p' row) eqn:E; [|apply app_nil_r].
    apply cart_has_key in E. cbn in E. congruence.
Qed.

Lemma cartAdd_upserts_witness :
  cartEntries
    (snd (cartAdd (Some 1%Z) (Some "cDE=") (Some "40000") 30 cartExample))
    1 "cDE="
  = [{| Db.c_user_id := 1; Db.c_product_id := "cDE=";
        Db.c_reminder_price := Some "40000"; Db.c_added_at := 30 |}].
Proof.
  apply (cartAdd_upserts cartExample 1 "cDE=" (Some "40000") 30).
  - discriminate.
  - discriminate.
  - reflexivity.
  - reflexivity.
Defined.

Lemma cartRemove_truthy (db : Db.t) (u : Z) (p : string) :
  u <> 0%Z -> p <> "" ->
  cartRemove (Some u) (Some p) db
  = (ok (if (0 <? List.length (cartEntries db u p))%nat
         then "Removed from cart." else "Not found in cart."),
     fst (Db.delete_cart u p db)).
Proof.
  intros Hu Hp. unfold cartRemove.
  rewrite (truthyId_Some u Hu), (truthy_Some p Hp). reflexivity.
Qed.

(** X18.  Putting a product in the cart of a user who did not have it and
    taking it out again gives back the database as it was, with the answer
    "Removed from cart.".  Taking out a product that is not in the cart
    answers "Not found in cart." and changes nothing. *)
Theorem cartAdd_then_remove
    (db : Db.t) (u : Z) (p : string) (reminderPrice : option string)
    (now : Z) :
  u <> 0%Z -> p <> "" ->
  cartEntries db u p = [] ->
  cartRemove (Some u) (Some p) db = (ok "Not found in cart.", db)
  /\ (Db.product_exists p db = true -> Db.customer_exists u db = true ->
      cartRemove (Some u) (Some p)
        (snd (cartAdd (Some u) (Some p) reminderPrice now db))
      = (ok "Removed from cart.", db)).
Proof.
  intros Hu Hp Habsent. unfold cartEntries in Habsent. split.
  - rewrite (cartRemove_truthy db u p Hu Hp). unfold cartEntries.
    rewrite Habsent. cbn. unfold Db.delete_cart. cbn.
    rewrite (filter_none _ _ Habsent). destruct db; reflexivity.
  - intros Hprod Hcust.
    rewrite (cartAdd_succeeds db u p reminderPrice now Hu Hp Hprod Hcust).
    cbn [snd]. rewrite (cartRemove_truthy _ u p Hu Hp).
    set (row := {| Db.c_user_id := u; Db.c_product_id := p;
                   Db.c_reminder_price := reminderPrice;
                   Db.c_added_at := now |}).
    unfold cartEntries, Db.delete_cart. cbn [fst].
    change (Db.cart (Db.insert_or_replace_cart row db))
      with (filter (fun r => negb (Db.cart_has u p r)) (Db.cart db)
            ++ [row])%list.
    assert (Hrow : Db.cart_has u p row = true) by apply (cart_has_row row).
    rewrite !filter_app, filter_negb_same. cbn [filter app].
    rewrite Hrow. cbn [negb List.length Nat.ltb Nat.leb app].
    rewrite (filter_none _ _ Habsent), app_nil_r.
    rewrite (filter_none _ _ Habsent).
    destruct db; reflexivity.
Qed.

Lemma cartAdd_then_remove_witness :
  let db := fst (Db.delete_cart 1 "cDE=" cartExample) in
  cartRemove (Some 1%Z) (Some "cDE=")
    (snd (cartAdd (Some 1%Z) (Some "cDE=") (Some "40000") 30 db))
  = (ok "Removed from cart.", db).
Proof.
  intros db.
  apply (cartAdd_then_remove db 1 "cDE=" (Some "40000") 30).
  - discriminate.
  - discriminate.
  - reflexivity.
  - reflexivity.
  - reflexivity.
Defined.

(** ** A whole run of the price-drop worker *)

Lemma select_reminders_In (db : Db.t) (r : Db.ReminderRow) :
  In r (Db.select_reminders db) <->
  exists c p cu,
    In c (Db.cart db) /\ In p (Db.products db) /\ In cu (Db.customers db)
    /\ Db.c_product_id c = Db.p_id p /\ Db.c_user_id c = Db.cu_id cu
    /\ Db.c_reminder_price c = Some (Db.r_reminder_price r)
    /\ r = {| Db.r_user_id := Db.c_user_id c;
              Db.r_product_id := Db.c_product_id c;
              Db.r_reminder_price := Db.r_reminder_price r;
              Db.r_title := Db.p_title p;
              Db.r_last_price := Db.p_last_price p;
              Db.r_email := Db.cu_email cu;
              Db.r_name := Db.cu_name cu |}.
Proof.
  unfold Db.select_reminders. rewrite in_flat_map. split.
  - intros (c & Hc & H).
    destruct (Db.c_reminder_price c) as [reminder|] eqn:Hrem; [|destruct H].
    apply in_flat_map in H as (p & Hp & H).
    destruct (String.eqb_spec (Db.c_product_id c) (Db.p_id p)) as [Hid|];
      [|destruct H].
    apply in_flat_map in H as (cu & Hcu & H).
    destruct (Z.eqb_spec (Db.c_user_id c) (Db.cu_id cu)) as [Hu|];
      [|destruct H].
    destruct H as [<-|[]]. exists c, p, cu. cbn. auto 10.
  - intros (c & p & cu & Hc & Hp & Hcu & Hid & Hu & Hrem & Hr).
    exists c. split; [exact Hc|]. rewrite Hrem.
    apply in_flat_map. exists p. split; [exact Hp|].
    rewrite Hid, String.eqb_refl.
    apply in_flat_map. exists cu. split; [exact Hcu|].
    rewrite Hu, Z.eqb_refl. left. rewrite Hr. cbn.
    rewrite Hid, Hu. reflexivity.
Qed.

(** The step of the worker on the database and on one cart row. *)
Lemma sweep_fold (rows : list Db.ReminderRow) :
  forall db outbox,
    fold_left sweepRow rows (db, outbox)
    = (fold_left
         (fun d r =>
            if priceDropped r
            then Db.update_cart_clear_reminder (Db.r_user_id r)
                   (Db.r_product_id r) d
            else d) rows db,
       (outbox ++ map mailFor (filter priceDropped rows))%list).
Proof.
  induction rows as [|r rows IH]; intros db outbox; cbn [fold_left filter].
  - cbn. rewrite app_nil_r. reflexivity.
  - unfold sweepRow at 2. destruct (priceDropped r); rewrite IH.
    + cbn [map]. rewrite <- app_assoc. reflexivity.
    + reflexivity.
Qed.

Lemma clear_reminder_cases (u : Z) (p : string) (c : Db.CartRow) :
  Db.clear_reminder u p c
  = if Db.cart_has u p c then withoutReminder c else c.
Proof. reflexivity. Qed.

Lemma cleared_row (rows : list Db.ReminderRow) :
  forall c,
    fold_left
      (fun c r =>
         if priceDropped r
         then Db.clear_reminder (Db.r_user_id r) (Db.r_product_id r) c
         else c) rows c
    = if dropsFor rows c then withoutReminder c
      else c.
Proof.
  induction rows as [|r rows IH]; intros c; [reflexivity|].
  cbn [fold_left dropsFor existsb]. fold (dropsFor rows c).
  destruct (priceDropped r); cbn [andb]; [|apply IH].
  rewrite clear_reminder_cases.
  destruct (Db.cart_has (Db.r_user_id r) (Db.r_product_id r) c) eqn:E;
    cbn [orb]; [|apply IH].
  rewrite IH. destruct (dropsFor rows (withoutReminder c)); reflexivity.
Qed.

Lemma swept_tables (rows : list Db.ReminderRow) :
  forall db,
    let db' :=
      fold_left
        (fun d r =>
           if priceDropped r
           then Db.update_cart_clear_reminder (Db.r_user_id r)
                  (Db.r_product_id r) d
           else d) rows db in
    Db.products db' = Db.products db
    /\ Db.price_history db' = Db.price_history db
    /\ Db.wishlists db' = Db.wishlists db
    /\ Db.customers db' = Db.customers db
    /\ Db.cart db'
       = map (fun c =>
                fold_left
                  (fun c r =>
                     if priceDropped r
                     then Db.clear_reminder (Db.r_user_id r)
                            (Db.r_product_id r) c
                     else c) rows c) (Db.cart db).
Proof.
  induction rows as [|r rows IH]; intros db; cbn [fold_left].
  - cbn. rewrite map_id. repeat split.
  - destruct (priceDropped r).
    + destruct (IH (Db.update_cart_clear_reminder (Db.r_user_id r)
                      (Db.r_product_id r) db)) as (H1 & H2 & H3 & H4 & H5).
      cbn zeta in *. rewrite H1, H2, H3, H4, H5. cbn.
      rewrite map_map. repeat split.
    + apply IH.
Qed.

Lemma worker_closed_form (db : Db.t) (outbox : list Mail) :
  let rows := Db.select_reminders db in
  let after := priceDropWorker (db, outbox) in
  snd after = (outbox ++ map mailFor (filter priceDropped rows))%list
  /\ Db.cart (fst after)
     = map (fun c => if dropsFor rows c then withoutReminder c else c)
         (Db.cart db)
  /\ Db.products (fst after) = Db.products db
  /\ Db.price_history (fst after) = Db.price_history db
  /\ Db.wishlists (fst after) = Db.wishlists db
  /\ Db.customers (fst after) = Db.customers db.
Proof.
  intros rows after. subst after. unfold priceDropWorker. cbn [fst].
  fold rows. rewrite sweep_fold. cbn [fst snd].
  destruct (swept_tables rows db) as (H1 & H2 & H3 & H4 & H5).
  cbn zeta in *. rewrite H1, H2, H3, H4, H5.
  split; [reflexivity|]. split; [|repeat split].
  apply map_ext. intros c. apply cleared_row.
Qed.

(** X19.  One run of the worker sends one mail for each row it read whose
    price has dropped, in their order.  It clears the reminder of exactly
    the cart rows of a user and a product for which such a row was read;
    it removes no cart row and leaves the products, the price history, the
    wish lists and the customers as they are. *)
Theorem priceDropWorker_effect (db : Db.t) (outbox : list Mail) :
  let rows := Db.select_reminders db in
  let after := priceDropWorker (db, outbox) in
  snd after = (outbox ++ map mailFor (filter priceDropped rows))%list
  /\ Db.cart (fst after)
     = map (fun c => if dropsFor rows c then withoutReminder c else c)
         (Db.cart db)
  /\ Db.products (fst after) = Db.products db
  /\ Db.price_history (fst after) = Db.price_history db
  /\ Db.wishlists (fst after) = Db.wishlists db
  /\ Db.customers (fst after) = Db.customers db.
Proof. exact (worker_closed_form db outbox). Qed.

Lemma db_ext (a b : Db.t) :
  Db.products a = Db.products b ->
  Db.price_history a = Db.price_history b ->
  Db.wishlists a = Db.wishlists b ->
  Db.customers a = Db.customers b ->
  Db.cart a = Db.cart b ->
  a = b.
Proof. destruct a, b. cbn. intros -> -> -> -> ->. reflexivity. Qed.

Lemma nothing_dropped (rows : list Db.ReminderRow) :
  (forall r, In r rows -> priceDropped r = false) ->
  filter priceDropped rows = []
  /\ forall c, dropsFor rows c = false.
Proof.
  intros H. induction rows as [|r rows IH]; [split; reflexivity|].
  destruct IH as [IH1 IH2]; [intros r' Hr'; apply H; right; exact Hr'|].
  cbn. rewrite (H r (or_introl eq_refl)). cbn.
  split; [exact IH1|exact IH2].
Qed.

(** After a run, no row the worker would read has a dropped price. *)
Lemma swept_rows_quiet (db : Db.t) (outbox : list Mail) (r : Db.ReminderRow) :
  In r (Db.select_reminders (fst (priceDropWorker (db, outbox)))) ->
  priceDropped r = false.
Proof.
  destruct (worker_closed_form db outbox)
    as (_ & Hcart & Hproducts & _ & _ & Hcustomers).
  cbn zeta in *. intros Hr.
  apply select_reminders_In in Hr
    as (c' & p & cu & Hc' & Hp & Hcu & Hid & Hu & Hrem & Hr).
  rewrite Hcart in Hc'. rewrite Hproducts in Hp. rewrite Hcustomers in Hcu.
  apply in_map_iff in Hc' as (c & Hc' & Hc).
  destruct (dropsFor (Db.select_reminders db) c) eqn:Hdrops.
  { subst c'. discriminate Hrem. }
  subst c'.
  assert (Hin : In r (Db.select_reminders db))
    by (apply select_reminders_In; exists c, p, cu; auto 10).
  destruct (priceDropped r) eqn:Hdropped; [|reflexivity].
  exfalso.
  assert (Htrue : dropsFor (Db.select_reminders db) c = true).
  { apply existsb_exists. exists r. split; [exact Hin|].
    rewrite Hdropped, Hr. cbn. apply cart_has_row. }
  congruence.
Qed.

(** X20.  A second run of the worker right after a run sends no mail and
    changes nothing: a price drop is announced once. *)
Theorem priceDropWorker_twice (db : Db.t) (outbox : list Mail) :
  priceDropWorker (priceDropWorker (db, outbox))
  = priceDropWorker (db, outbox).
Proof.
  destruct (priceDropWorker (db, outbox)) as [db' outbox'] eqn:E.
  assert (Hquiet : forall r, In r (Db.select_reminders db') ->
            priceDropped r = false).
  { intros r Hr. apply (swept_rows_quiet db outbox). rewrite E. exact Hr. }
  destruct (nothing_dropped _ Hquiet) as [Hnone Hkeep].
  destruct (worker_closed_form db' outbox')
    as (Hout & Hcart & H1 & H2 & H3 & H4).
  cbn zeta in *. rewrite Hnone, app_nil_r in Hout.
  rewrite (map_ext _ (fun c => c)), map_id in Hcart
    by (intros c; rewrite Hkeep; reflexivity).
  rewrite (surjective_pairing (priceDropWorker (db', outbox'))).
  f_equal; [|exact Hout].
  apply db_ext; assumption.
Qed.

(** ** Accounts *)

Lemma max_id_bound (ids : list Z) (i : Z) :
  In i ids -> (i <= fold_right Z.max 0 ids)%Z.
Proof.
  induction ids as [|j ids IH]; [intros []|].
  cbn. intros [->|Hin]; [lia|]. specialize (IH Hin). lia.
Qed.

Lemma email_registered (email : string) (db : Db.t) :
  existsb (fun cu => String.eqb (Db.cu_email cu) email) (Db.customers db)
  = true <->
  In email (map Db.cu_email (Db.customers db)).
Proof.
  rewrite existsb_exists, in_map_iff.
  split; intros (cu & H1 & H2); exists cu.
  - apply String.eqb_eq in H2. auto.
  - split; [exact H2|]. apply String.eqb_eq, H1.
Qed.

Lemma register_truthy (bcrypt_hash : string -> string)
    (name email password : string) (now : Z) (state : Db.t * list Mail) :
  name <> "" -> email <> "" -> password <> "" ->
  register bcrypt_hash (Some name) (Some email) (Some password) now state
  = match Db.insert_customer name email (bcrypt_hash password) now
            (fst state) with
    | None => (error 409 "Email already registered.", state)
    | Some db' =>
        (ok "Registration successful!",
         (db', (snd state ++ [sendWelcomeEmail email name])%list))
    end.
Proof.
  intros Hn He Hp. unfold register.
  rewrite (truthy_Some _ Hn), (truthy_Some _ He), (truthy_Some _ Hp).
  reflexivity.
Qed.

(** X21.  [POST /register] with a name, an email and a password.  When the
    email is already that of a customer, the answer is 409 and neither the
    database nor the mails change.  Otherwise the registration succeeds: one
    customer is added, with a key above every key in use and the hash of the
    password, and one welcome mail is sent to the email.  Registering the
    same email again right after is refused. *)
Theorem register_once
    (bcrypt_hash : string -> string) (name email password : string)
    (now : Z) (db : Db.t) (outbox : list Mail) :
  name <> "" -> email <> "" -> password <> "" ->
  let reply :=
    register bcrypt_hash (Some name) (Some email) (Some password) now
      (db, outbox) in
  (In email (map Db.cu_email (Db.customers db)) ->
   reply = (error 409 "Email already registered.", (db, outbox)))
  /\
  (~ In email (map Db.cu_email (Db.customers db)) ->
   fst reply = ok "Registration successful!"
   /\ snd (snd reply) = (outbox ++ [sendWelcomeEmail email name])%list
   /\ Db.customers (fst (snd reply))
      = (Db.customers db ++
         [{| Db.cu_id := Db.next_customer_id db; Db.cu_name := name;
             Db.cu_email := email;
             Db.cu_password_hash := bcrypt_hash password;
             Db.cu_created_at := now |}])%list
   /\ (forall i, In i (map Db.cu_id (Db.customers db)) ->
                 (i < Db.next_customer_id db)%Z)
   /\ Db.cart (fst (snd reply)) = Db.cart db
   /\ Db.products (fst (snd reply)) = Db.products db
   /\ forall name' password' now',
        name' <> "" -> password' <> "" ->
        register bcrypt_hash (Some name') (Some email) (Some password') now'
          (snd reply)
        = (error 409 "Email already registered.", snd reply)).
Proof.
  intros Hn He Hp reply. subst reply.
  rewrite (register_truthy bcrypt_hash name email password now _ Hn He Hp).
  cbn [fst snd]. unfold Db.insert_customer.
  destruct (existsb (fun cu => String.eqb (Db.cu_email cu) email)
              (Db.customers db)) eqn:E.
  - split; [reflexivity|]. intros Hnot. exfalso.
    apply Hnot, email_registered, E.
  - split.
    { intros Hin. apply email_registered in Hin. congruence. }
    intros _. cbn [fst snd Db.customers Db.cart Db.products].
    repeat (split; [reflexivity|]).
    split.
    { intros i Hi. unfold Db.next_customer_id.
      pose proof (max_id_bound _ i Hi). lia. }
    split; [reflexivity|]. split; [reflexivity|].
    intros name' password' now' Hn' Hp'.
    rewrite (register_truthy bcrypt_hash name' email password' now' _
               Hn' He Hp').
    cbn [fst]. unfold Db.insert_customer. cbn [Db.customers].
    rewrite existsb_app. cbn. rewrite String.eqb_refl, orb_true_r.
    reflexivity.
Qed.

Lemma register_once_witness :
  fst (register (fun s => s) (Some "Ravi") (Some "ravi@example.org")
         (Some "secret") 40 (cartExample, []))
  = ok "Registration successful!"
  /\ fst (register (fun s => s) (Some "Asha") (Some "asha@example.org")
            (Some "secret") 40 (cartExample, []))
     = error 409 "Email already registered.".
Proof.
  split.
  - apply (register_once (fun s => s) "Ravi" "ravi@example.org" "secret" 40
             cartExample []); try discriminate.
    cbn. intros [H|[]]. discriminate H.
  - assert (H : register (fun s => s) (Some "Asha") (Some "asha@example.org")
                  (Some "secret") 40 (cartExample, [])
                = (error 409 "Email already registered.", (cartExample, []))).
    { apply (proj1 (register_once (fun s => s) "Asha" "asha@example.org"
                      "secret" 40 cartExample [] ltac:(discriminate)
                      ltac:(discriminate) ltac:(discriminate))).
      left. reflexivity. }
    rewrite H. reflexivity.
Defined.

Lemma find_unique_email (email : string) (l : list Db.Customer)
    (cu : Db.Customer) :
  NoDup (map Db.cu_email l) ->
  (find (fun cu => String.eqb (Db.cu_email cu) email) l = Some cu
   <-> In cu l /\ Db.cu_email cu = email).
Proof.
  induction l as [|x l IH]; intros Hnd.
  - cbn. split; [discriminate|intros [[] _]].
  - inversion Hnd as [|? ? Hnotin Hnd']; subst.
    cbn [find]. destruct (String.eqb (Db.cu_email x) email) eqn:E.
    + apply String.eqb_eq in E. split.
      * intros [= <-]. split; [left; reflexivity|exact E].
      * intros [[->|Hin] He]; [reflexivity|].
        exfalso. apply Hnotin. rewrite E, <- He. apply in_map, Hin.
    + apply String.eqb_neq in E. rewrite (IH Hnd'). split.
      * intros [Hin He]. split; [right; exact Hin|exact He].
      * intros [[->|Hin] He]; [contradiction|]. split; assumption.
Qed.

Lemma find_no_email (email : string) (l : list Db.Customer) :
  find (fun cu => String.eqb (Db.cu_email cu) email) l = None
  <-> ~ In email (map Db.cu_email l).
Proof.
  induction l as [|x l IH]; cbn [find map In]; [tauto|].
  destruct (String.eqb (Db.cu_email x) email) eqn:E.
  - apply String.eqb_eq in E. split; [discriminate|]. intros H.
    exfalso. apply H. left. exact E.
  - apply String.eqb_neq in E. rewrite IH. tauto.
Qed.

Lemma login_truthy (bcrypt_compare : string -> string -> bool)
    (email password : string) (db : Db.t) :
  email <> "" -> password <> "" ->
  login bcrypt_compare (Some email) (Some password) db
  = match Db.select_customer_by_email email db with
    | None => Failure 401 "Invalid email or password."
    | Some user =>
        if bcrypt_compare password (Db.cu_password_hash user)
        then Json {| account_id := Db.cu_id user;
                     account_name := Db.cu_name user;
                     account_email := Db.cu_email user |}
        else Failure 401 "Invalid email or password."
    end.
Proof.
  intros He Hp. unfold login.
  rewrite (truthy_Some _ He), (truthy_Some _ Hp). reflexivity.
Qed.

(** X22.  [POST /login] with an email and a password, on a table of
    customers with distinct emails.  The answer is an account exactly when
    it is the key, name and email of a customer with this email whose stored
    hash [bcrypt.compare] accepts for the password; in every other case the
    answer is 401 with one and the same message, whether the email is
    unknown or the password is wrong. *)
Theorem login_characterised
    (bcrypt_compare : string -> string -> bool) (email password : string)
    (db : Db.t) :
  email <> "" -> password <> "" ->
  NoDup (map Db.cu_email (Db.customers db)) ->
  let accepted (cu : Db.Customer) :=
    In cu (Db.customers db) /\ Db.cu_email cu = email
    /\ bcrypt_compare password (Db.cu_password_hash cu) = true in
  (forall account,
     login bcrypt_compare (Some email) (Some password) db = Json account
     <-> exists cu, accepted cu
           /\ account = {| account_id := Db.cu_id cu;
                           account_name := Db.cu_name cu;
                           account_email := email |})
  /\ ((~ exists cu, accepted cu) ->
      login bcrypt_compare (Some email) (Some password) db
      = Failure 401 "Invalid email or password.").
Proof.
  intros He Hp Hnd accepted.
  rewrite (login_truthy bcrypt_compare email password db He Hp).
  unfold Db.select_customer_by_email.
  destruct (find (fun cu => String.eqb (Db.cu_email cu) email)
              (Db.customers db)) as [user|] eqn:F.
  - pose proof (proj1 (find_unique_email email _ user Hnd) F) as [Hin Hmail].
    destruct (bcrypt_compare password (Db.cu_password_hash user)) eqn:C.
    + split.
      * intros account. split.
        -- intros [= <-]. exists user. split.
           ++ repeat split; assumption.
           ++ rewrite Hmail. reflexivity.
        -- intros (cu & (Hin' & Hmail' & _) & ->).
           assert (cu = user) as ->.
           { assert (F' : find (fun cu => String.eqb (Db.cu_email cu) email)
                            (Db.customers db) = Some cu).
             { apply find_unique_email; [exact Hnd|split; assumption]. }
             congruence. }
           rewrite Hmail. reflexivity.
      * intros Hnone. exfalso. apply Hnone. exists user.
        repeat split; assumption.
    + split; [|reflexivity].
      intros account. split; [discriminate|].
      intros (cu & (Hin' & Hmail' & C') & _). exfalso.
      assert (cu = user) as ->.
      { assert (F' : find (fun cu => String.eqb (Db.cu_email cu) email)
                       (Db.customers db) = Some cu).
        { apply find_unique_email; [exact Hnd|split; assumption]. }
        congruence. }
      congruence.
  - split; [|reflexivity].
    intros account. split; [discriminate|].
    intros (cu & (Hin' & Hmail' & _) & _). exfalso.
    apply find_no_email in F. apply F. rewrite <- Hmail'.
    apply in_map, Hin'.
Qed.

Lemma login_characterised_witness :
  login String.eqb (Some "asha@example.org") (Some "hash") cartExample
  = Json {| account_id := 1; account_name := "Asha";
            account_email := "asha@example.org" |}
  /\ login String.eqb (Some "ravi@example.org") (Some "hash") cartExample
     = Failure 401 "Invalid email or password.".
Proof.
  split.
  - apply (login_characterised String.eqb "asha@example.org" "hash"
             cartExample); try discriminate.
    + cbn. constructor; [intros []|constructor].
    + exists {| Db.cu_id := 1; Db.cu_name := "Asha";
                Db.cu_email := "asha@example.org";
                Db.cu_password_hash := "hash"; Db.cu_created_at := 5 |}.
      split; [|reflexivity].
      split; [left; reflexivity|]. split; reflexivity.
  - apply (login_characterised String.eqb "ravi@example.org" "hash"
             cartExample); try discriminate.
    + cbn. constructor; [intros []|constructor].
    + intros (cu & ([<-|[]] & Hmail & _)). discriminate Hmail.
Defined.

Lemma find_appended (email : string) (l : list Db.Customer)
    (row : Db.Customer) :
  ~ In email (map Db.cu_email l) ->
  Db.cu_email row = email ->
  find (fun cu => String.eqb (Db.cu_email cu) email) (l ++ [row])%list
  = Some row.
Proof.
  intros Hnew Hrow. apply find_no_email in Hnew. revert Hnew.
  induction l as [|x l IH]; cbn [find app].
  - intros _. rewrite Hrow, String.eqb_refl. reflexivity.
  - destruct (String.eqb (Db.cu_email x) email); [discriminate|].
    exact IH.
Qed.

(** X23.  A customer who has just registered can log in.  When the email is
    new and [bcrypt.compare] accepts a password for the hash [bcrypt.hash]
    made of it, the login with the registered email and password answers
    with the new key and the registered name and email; a password that
    [bcrypt.compare] does not accept for this hash gets 401. *)
Theorem register_then_login
    (bcrypt_hash : string -> string)
    (bcrypt_compare : string -> string -> bool)
    (name email password : string) (now : Z) (db : Db.t)
    (outbox : list Mail) :
  name <> "" -> email <> "" -> password <> "" ->
  ~ In email (map Db.cu_email (Db.customers db)) ->
  bcrypt_compare password (bcrypt_hash password) = true ->
  let db' :=
    fst (snd (register bcrypt_hash (Some name) (Some email) (Some password)
                now (db, outbox))) in
  login bcrypt_compare (Some email) (Some password) db'
  = Json {| account_id := Db.next_customer_id db; account_name := name;
            account_email := email |}
  /\ forall other,
       other <> "" ->
       bcrypt_compare other (bcrypt_hash password) = false ->
       login bcrypt_compare (Some email) (Some other) db'
       = Failure 401 "Invalid email or password.".
Proof.
  intros Hn He Hp Hnew Hok db'. subst db'.
  rewrite (register_truthy bcrypt_hash name email password now _ Hn He Hp).
  cbn [fst snd]. unfold Db.insert_customer.
  destruct (existsb (fun cu => String.eqb (Db.cu_email cu) email)
              (Db.customers db)) eqn:E.
  { exfalso. apply Hnew, email_registered, E. }
  cbn [fst snd].
  pose proof (find_appended email (Db.customers db)
                {| Db.cu_id := Db.next_customer_id db; Db.cu_name := name;
                   Db.cu_email := email;
                   Db.cu_password_hash := bcrypt_hash password;
                   Db.cu_created_at := now |} Hnew eq_refl) as F.
  split.
  - rewrite (login_truthy bcrypt_compare email password _ He Hp).
    unfold Db.select_customer_by_email. cbn [Db.customers].
    rewrite F. cbn [Db.cu_password_hash Db.cu_id Db.cu_name
                                 Db.cu_email].
    rewrite Hok. reflexivity.
  - intros other Ho Hbad.
    rewrite (login_truthy bcrypt_compare email other _ He Ho).
    unfold Db.select_customer_by_email. cbn [Db.customers].
    rewrite F. cbn [Db.cu_password_hash]. rewrite Hbad.
    reflexivity.
Qed.

Lemma register_then_login_witness :
  login String.eqb (Some "ravi@example.org") (Some "secret")
    (fst (snd (register (fun s => s) (Some "Ravi") (Some "ravi@example.org")
                 (Some "secret") 40 (cartExample, []))))
  = Json {| account_id := 2; account_name := "Ravi";
            account_email := "ravi@example.org" |}.
Proof.
  apply (register_then_login (fun s => s) String.eqb "Ravi"
           "ravi@example.org" "secret" 40 cartExample []);
    try discriminate.
  - cbn. intros [H|[]]. discriminate H.
  - reflexivity.
Defined.

(** ** The keys of the schema *)

Lemma cartRefers_kept (db db' : Db.t) :
  (forall i, Db.product_exists i db = true ->
             Db.product_exists i db' = true) ->
  (forall u, Db.customer_exists u db = true ->
             Db.customer_exists u db' = true) ->
  (forall c', In c' (Db.cart db') ->
     (exists c, In c (Db.cart db)
                /\ Db.c_user_id c = Db.c_user_id c'
                /\ Db.c_product_id c = Db.c_product_id c')
     \/ (Db.product_exists (Db.c_product_id c') db' = true
         /\ Db.customer_exists (Db.c_user_id c') db' = true)) ->
  cartRefers db -> cartRefers db'.
Proof.
  intros Hp Hc Hrows Href c' Hin.
  destruct (Hrows c' Hin) as [(c & Hc0 & Hu & Hi)|H]; [|exact H].
  destruct (Href c Hc0) as [H1 H2]. rewrite <- Hu, <- Hi.
  split; [apply Hp, H1|apply Hc, H2].
Qed.

Lemma cart_keys_inserted (row : Db.CartRow) (db : Db.t) :
  Db.product_exists (Db.c_product_id row) db = true ->
  Db.customer_exists (Db.c_user_id row) db = true ->
  uniqueCart db -> cartRefers db ->
  uniqueCart (Db.insert_or_replace_cart row db)
  /\ cartRefers (Db.insert_or_replace_cart row db).
Proof.
  intros Hp Hc Hu Hr. split.
  - unfold uniqueCart, Db.insert_or_replace_cart. cbn [Db.cart].
    apply NoDup_replace; [|exact Hu].
    intros x _ Hkeep Heq.
    apply negb_true_iff in Hkeep.
    assert (Db.cart_has (Db.c_user_id row) (Db.c_product_id row) x = true)
      by (apply cart_has_key; exact Heq).
    congruence.
  - apply (cartRefers_kept db); [auto|auto| |exact Hr].
    intros c'. unfold Db.insert_or_replace_cart. cbn [Db.cart].
    rewrite in_app_iff, filter_In. intros [[Hin _]|[<-|[]]].
    + left. exists c'. auto.
    + right. split; assumption.
Qed.

Lemma cart_keys_deleted (u : Z) (p : string) (db : Db.t) :
  uniqueCart db -> cartRefers db ->
  uniqueCart (fst (Db.delete_cart u p db))
  /\ cartRefers (fst (Db.delete_cart u p db)).
Proof.
  intros Hu Hr. split.
  - unfold uniqueCart, Db.delete_cart. cbn [fst Db.cart].
    apply NoDup_map_filter, Hu.
  - apply (cartRefers_kept db); [auto|auto| |exact Hr].
    intros c'. unfold Db.delete_cart. cbn [fst Db.cart].
    rewrite filter_In. intros [Hin _]. left. exists c'. auto.
Qed.

(** X24.  Whatever the request, [POST /cart/add] and [DELETE /cart/remove]
    leave the cart with one row at most for a user and a product, and with
    rows that name a product and a customer that exist: the handler of
    [/cart/add] looks both up before it writes, which the database, where
    foreign keys are not switched on, does not do for it. *)
Theorem cart_routes_keep_keys
    (userId : option Z) (productId reminderPrice : option string)
    (now : Z) (db : Db.t) :
  uniqueCart db -> cartRefers db ->
  (uniqueCart (snd (cartAdd userId productId reminderPrice now db))
   /\ cartRefers (snd (cartAdd userId productId reminderPrice now db)))
  /\ (uniqueCart (snd (cartRemove userId productId db))
      /\ cartRefers (snd (cartRemove userId productId db))).
Proof.
  intros Hu Hr. split.
  - unfold cartAdd.
    destruct (negb (truthyId userId) || negb (truthy productId));
      [split; assumption|].
    destruct (Db.product_exists (or_empty productId) db) eqn:Ep;
      [|split; assumption].
    destruct (Db.customer_exists (id_or_zero userId) db) eqn:Ec;
      [|split; assumption].
    cbn [negb snd]. apply cart_keys_inserted; assumption.
  - unfold cartRemove.
    destruct (negb (truthyId userId) || negb (truthy productId));
      [split; assumption|].
    pose proof (cart_keys_deleted (id_or_zero userId) (or_empty productId)
                  db Hu Hr) as H.
    destruct (Db.delete_cart (id_or_zero userId) (or_empty productId) db)
      as [db' changes].
    exact H.
Qed.

Lemma cart_routes_keep_keys_witness :
  uniqueCart (snd (cartAdd (Some 1%Z) (Some "cDE=") None 30 cartExample))
  /\ cartRefers (snd (cartAdd (Some 1%Z) (Some "cDE=") None 30 cartExample)).
Proof.
  assert (Hu : uniqueCart cartExample).
  { unfold uniqueCart. cbn. constructor; [intros []|constructor]. }
  assert (Hr : cartRefers cartExample).
  { intros c [<-|[]]. split; reflexivity. }
  exact (proj1 (cart_routes_keep_keys (Some 1%Z) (Some "cDE=") None 30
                  cartExample Hu Hr)).
Defined.

Lemma customer_exists_appended (u : Z) (db db' : Db.t) (row : Db.Customer) :
  Db.customers db' = (Db.customers db ++ [row])%list ->
  Db.customer_exists u db = true -> Db.customer_exists u db' = true.
Proof.
  unfold Db.customer_exists. intros -> H.
  rewrite existsb_app, H. reflexivity.
Qed.

Lemma same_rows_refer (db db' : Db.t) :
  Db.cart db' = Db.cart db ->
  forall c', In c' (Db.cart db') ->
    (exists c, In c (Db.cart db)
               /\ Db.c_user_id c = Db.c_user_id c'
               /\ Db.c_product_id c = Db.c_product_id c')
    \/ (Db.product_exists (Db.c_product_id c') db' = true
        /\ Db.customer_exists (Db.c_user_id c') db' = true).
Proof. intros -> c' Hin. left. exists c'. auto. Qed.

Lemma register_tables (bcrypt_hash : string -> string)
    (name email password : option string) (now : Z)
    (state : Db.t * list Mail) :
  let db := fst state in
  let db' := fst (snd (register bcrypt_hash name email password now state)) in
  Db.products db' = Db.products db
  /\ Db.price_history db' = Db.price_history db
  /\ Db.wishlists db' = Db.wishlists db
  /\ Db.cart db' = Db.cart db
  /\ (Db.customers db' = Db.customers db
      \/ exists row,
           Db.customers db' = (Db.customers db ++ [row])%list
           /\ Db.cu_id row = Db.next_customer_id db
           /\ ~ In (Db.cu_email row) (map Db.cu_email (Db.customers db))).
Proof.
  unfold register.
  destruct (negb (truthy name) || negb (truthy email)
            || negb (truthy password)); [cbn; tauto|].
  unfold Db.insert_customer.
  destruct (existsb (fun cu => String.eqb (Db.cu_email cu) (or_empty email))
              (Db.customers (fst state))) eqn:E; [cbn; tauto|].
  cbn [fst snd Db.products Db.price_history Db.wishlists Db.cart
       Db.customers].
  repeat (split; [reflexivity|]). right. eexists.
  split; [reflexivity|]. split; [reflexivity|].
  cbn [Db.cu_email]. intros Hin. apply email_registered in Hin. congruence.
Qed.

Lemma NoDup_appended {A : Type} (l : list A) (x : A) :
  NoDup l -> ~ In x l -> NoDup (l ++ [x]).
Proof.
  intros Hnd Hx. induction Hnd as [|y l Hy Hnd IH]; cbn.
  - constructor; [intros []|constructor].
  - constructor.
    + rewrite in_app_iff. intros [H|[->|[]]]; [contradiction|].
      apply Hx. left. reflexivity.
    + apply IH. intros H. apply Hx. right. exact H.
Qed.

(** X25.  The other writers keep the keys of the cart and of the customers
    too.  After a search has stored its products, after a run of the
    price-drop worker and after a registration, whatever its outcome, the
    cart still has one row at most for a user and a product, every row of it
    still names a product and a customer that exist, and the customers still
    have distinct keys and distinct emails. *)
Theorem writers_keep_keys
    (NumberToString : number -> string) (bcrypt_hash : string -> string)
    (provider : Provider) (results : list RawItem) (query : string)
    (name email password : option string) (now : Z) (db : Db.t)
    (outbox : list Mail) :
  uniqueCart db -> cartRefers db -> uniqueCustomers db ->
  let kept (db' : Db.t) :=
    uniqueCart db' /\ cartRefers db' /\ uniqueCustomers db' in
  kept (snd (processResults NumberToString provider results query now db))
  /\ kept (fst (priceDropWorker (db, outbox)))
  /\ kept (fst (snd (register bcrypt_hash name email password now
                       (db, outbox)))).
Proof.
  intros Hu Hr Hc kept. subst kept. cbn beta.
  split; [|split].
  - rewrite processResults_db.
    destruct (stored_tables now (normalize provider results) db)
      as (_ & _ & Hcust & Hcart).
    destruct (stored_products now (normalize provider results) db)
      as (_ & Hex & _).
    split; [|split].
    + unfold uniqueCart. rewrite Hcart. exact Hu.
    + apply (cartRefers_kept db); [| | |exact Hr].
      * intros i Hi. apply Hex. left. exact Hi.
      * intros u. unfold Db.customer_exists. rewrite Hcust. auto.
      * apply same_rows_refer, Hcart.
    + unfold uniqueCustomers. rewrite Hcust. exact Hc.
  - destruct (worker_closed_form db outbox)
      as (_ & Hcart & Hprod & _ & _ & Hcust).
    split; [|split].
    + unfold uniqueCart. rewrite Hcart, map_map.
      erewrite map_ext; [exact Hu|].
      intros c. destruct (dropsFor (Db.select_reminders db) c); reflexivity.
    + apply (cartRefers_kept db); [| | |exact Hr].
      * intros i. unfold Db.product_exists. rewrite Hprod. auto.
      * intros u. unfold Db.customer_exists. rewrite Hcust. auto.
      * intros c'. rewrite Hcart, in_map_iff. intros (c & <- & Hin).
        left. exists c. split; [exact Hin|].
        destruct (dropsFor (Db.select_reminders db) c); split; reflexivity.
    + unfold uniqueCustomers. rewrite Hcust. exact Hc.
  - destruct (register_tables bcrypt_hash name email password now
                (db, outbox)) as (Hprod & _ & _ & Hcart & Hcust).
    cbn [fst] in Hprod, Hcart, Hcust.
    split; [|split].
    + unfold uniqueCart. rewrite Hcart. exact Hu.
    + apply (cartRefers_kept db); [| | |exact Hr].
      * intros i. unfold Db.product_exists. rewrite Hprod. auto.
      * intros u. destruct Hcust as [Hsame|(row & Happ & _)].
        -- unfold Db.customer_exists. rewrite Hsame. auto.
        -- apply (customer_exists_appended u db _ row Happ).
      * apply same_rows_refer, Hcart.
    + destruct Hc as [Hids Hmails].
      destruct Hcust as [Hsame|(row & Happ & Hid & Hmail)].
      * unfold uniqueCustomers. rewrite Hsame. split; assumption.
      * unfold uniqueCustomers. rewrite Happ, !map_app. cbn [map]. split.
        -- apply NoDup_appended; [exact Hids|].
           rewrite Hid. intros Hin.
           pose proof (max_id_bound _ _ Hin) as Hle.
           unfold Db.next_customer_id in Hle. lia.
        -- apply NoDup_appended; assumption.
Qed.

Lemma writers_keep_keys_witness :
  uniqueCustomers
    (fst (snd (register (fun s => s) (Some "Ravi") (Some "ravi@example.org")
                 (Some "secret") 40 (cartExample, [])))).
Proof.
  assert (Hu : uniqueCart cartExample).
  { unfold uniqueCart. cbn. constructor; [intros []|constructor]. }
  assert (Hr : cartRefers cartExample).
  { intros c [<-|[]]. split; reflexivity. }
  assert (Hc : uniqueCustomers cartExample).
  { split; cbn; (constructor; [intros []|constructor]). }
  exact (proj2 (proj2 (proj2 (proj2
           (writers_keep_keys unusedToString (fun s => s) GoogleShopping [] ""
              (Some "Ravi") (Some "ravi@example.org") (Some "secret") 40
              cartExample [] Hu Hr Hc))))).
Defined.
